(** * metalnet: route realization engine and dataplane translation layer

    A shallow embedding of

      - [src/dpdk/client.go]                (package [dpdk], the translation
                                             layer)
      - [src/metalbond/metalbond_client.go] (package [metalbond], the
                                             realization engine: fan-out and
                                             cleanup)

    together with the theorems that relate the code to its specification.

    Conventions.  Go's [uint32]/[uint16]/[int32] values are [Z].  The
    conversions [uint32(vni)] on an [mb.VNI], [uint32(port)] on a [uint16]
    and [int(length)] on a [uint32] are identities or widenings; the one
    conversion that can wrap, [uint32(prefix.Bits())] on an [int], is
    written out with [uint32].  A Go [(T, error)] result is a [result], a
    Go [error] result is an [option error] ([None] is [nil]). *)

From Stdlib Require Import ZArith List String Ascii Bool Lia.
From stdpp Require Import base decidable option list gmap strings pretty.

Import ListNotations.
Local Open Scope string_scope.
Local Open Scope Z_scope.

(* ===================================================================== *)
(** * Go's [net/netip] values *)
(* ===================================================================== *)

Module netip.

(** [netip.Addr]: the zero value, an IPv4 address (32 bits) or an IPv6
    address (128 bits).  IPv6 zones are not represented. *)
Inductive Addr : Type :=
| AddrZero
| Addr4 (a : Z)
| Addr6 (a : Z).

#[global] Instance Addr_eq_dec : EqDecision Addr.
Proof. solve_decision. Defined.

Definition Is4 (ip : Addr) : bool :=
  match ip with Addr4 _ => true | _ => false end.

Definition Is6 (ip : Addr) : bool :=
  match ip with Addr6 _ => true | _ => false end.

Definition IsValid (ip : Addr) : bool :=
  match ip with AddrZero => false | _ => true end.

Definition BitLen (ip : Addr) : Z :=
  match ip with AddrZero => 0 | Addr4 _ => 32 | Addr6 _ => 128 end.

(** [netip.Prefix]: an address and a length; [-1] marks an invalid one. *)
Record Prefix : Type := PrefixFrom { ip : Addr; bits : Z }.

#[global] Instance Prefix_eq_dec : EqDecision Prefix.
Proof. solve_decision. Defined.

Definition Prefix_Addr (p : Prefix) : Addr := ip p.
Definition Prefix_Bits (p : Prefix) : Z := bits p.

Definition Prefix_IsValid (p : Prefix) : bool :=
  IsValid (ip p) && (0 <=? bits p) && (bits p <=? BitLen (ip p)).

(** The [n] leading bits of a 128-bit word. *)
Definition mask6 (n : Z) : Z := Z.shiftl (Z.ones n) (128 - n).

(** [Prefix.Contains]: families must agree; the leading [bits] bits of
    the two addresses are compared. *)
Definition Contains (p : Prefix) (a : Addr) : bool :=
  if negb (Prefix_IsValid p) then false
  else match ip p, a with
         | Addr4 n, Addr4 x =>
             (Z.shiftr (Z.lxor x n) (Z.land (32 - bits p) 63)) mod 2 ^ 32 =? 0
         | Addr6 n, Addr6 x =>
             Z.land (Z.lxor x n) (mask6 (bits p)) =? 0
         | _, _ => false
         end.

(** [Addr.Prefix(b)]: the prefix of length [b] of the address, host bits
    cleared; an error ([None]) when [b] is out of range. *)
Definition Addr_Prefix (a : Addr) (b : Z) : option Prefix :=
  if b <? 0 then None
  else match a with
         | AddrZero => Some (PrefixFrom AddrZero 0)
         | Addr4 x =>
             if 32 <? b then None
             else Some (PrefixFrom (Addr4 (Z.land x (Z.shiftl (Z.ones b) (32 - b)))) b)
         | Addr6 x =>
             if 128 <? b then None
             else Some (PrefixFrom (Addr6 (Z.land x (mask6 b))) b)
         end.

(** Dotted-quad helper for examples: [a.b.c.d]. *)
Definition ipv4 (a b c d : Z) : Addr :=
  Addr4 (Z.lor (Z.shiftl a 24) (Z.lor (Z.shiftl b 16) (Z.lor (Z.shiftl c 8) d))).

End netip.

(* ===================================================================== *)
(** * Go [error] values *)
(* ===================================================================== *)

(** The error values the two packages build or pass along. *)
Inductive error : Type :=
| StatusError (errorCode : Z) (message : string)   (* &StatusError{errorCode, message} *)
| RPCError (msg : string)                          (* error returned by the gRPC call *)
| ParseAddrError (input : string)                  (* error of netip.ParseAddr *)
| ErrorString (msg : string)                       (* errors.New / fmt.Errorf without %w *)
| Wrapped (text : string) (cause : error).         (* fmt.Errorf(text + "%w", cause) *)

#[global] Instance error_eq_dec : EqDecision error.
Proof. solve_decision. Defined.

(** Text functions of Go's standard library and of the status-error
    package that the two files call.  They are taken as parameters: the
    theorems below hold for every implementation of them. *)
Class GoText : Type := {
  ParseAddr : string -> option netip.Addr;          (* netip.ParseAddr; None: parse error *)
  Addr_String : netip.Addr -> string;               (* netip.Addr.String *)
  Prefix_String : netip.Prefix -> string;           (* netip.Prefix.String *)
  IP : Type;                                        (* net.IP *)
  IPNet : Type;                                     (* net.IPNet *)
  ParseIP : string -> IP;                           (* net.ParseIP *)
  IPNet_Contains : IPNet -> IP -> bool;             (* net.IPNet.Contains *)
  StatusError_Error : Z -> string -> string;        (* StatusError.Error *)
  ParseAddrError_Error : string -> string           (* Error of a netip parse error *)
}.

(** [fmt]'s [%d] verb on an integer. *)
Definition itoa (n : Z) : string := pretty n.

(** [strings.Join]. *)
Fixpoint Join (elems : list string) (sep : string) : string :=
  match elems with
  | [] => ""
  | [s] => s
  | s :: rest => (s ++ sep ++ Join rest sep)%string
  end.

Section ErrorText.
Context `{GoText}.

(** [err.Error()]. *)
Fixpoint Error (e : error) : string :=
  match e with
  | StatusError code msg => StatusError_Error code msg
  | RPCError msg => msg
  | ParseAddrError input => ParseAddrError_Error input
  | ErrorString msg => msg
  | Wrapped text cause => (text ++ Error cause)%string
  end.
End ErrorText.

(** The conversion [uint32(n)] of a Go [int]: the value modulo 2^32, so
    that [-1] (the [Bits()] of an invalid prefix) becomes 4294967295. *)
Definition uint32 (n : Z) : Z := n mod 2 ^ 32.

(** A Go [(T, error)] result. *)
Inductive result (T : Type) : Type :=
| Ok (v : T)
| Err (e : error).
Arguments Ok {T} v.
Arguments Err {T} e.

(* ===================================================================== *)
(** * The wire messages of the dataplane service *)
(* ===================================================================== *)

(** The generated message types of the dataplane service's RPC interface
    are declared outside the repository; the fields below are the ones
    [client.go] reads through getters or sets in requests.  A missing
    sub-message reads as its zero value, as Go's nil-safe getters do. *)
Module dpdkproto.

Definition IPVersion := Z.
Definition IPVersion_IPv4 : IPVersion := 0.
Definition IPVersion_IPv6 : IPVersion := 1.

Inductive InterfaceType := InterfaceType_VirtualInterface.

Record Status := { Status_Error : Z; Status_Message : string }.

Record InterfaceIDMsg := { InterfaceIDMsg_InterfaceID : string }.

Record Interface := {
  InterfaceID : string;
  Vni : Z;
  PciDpName : string;
  PrimaryIPv4Address : string;
  PrimaryIPv6Address : string;
  UnderlayRoute : string
}.

Record GetInterfaceResponse := {
  GetInterfaceResponse_Status : Status;
  GetInterfaceResponse_Interface : Interface
}.

Record IPConfig := { IPConfig_IpVersion : IPVersion; IPConfig_PrimaryAddress : string }.

Record CreateInterfaceRequest := {
  CreateInterfaceRequest_InterfaceType : InterfaceType;
  CreateInterfaceRequest_InterfaceID : string;
  CreateInterfaceRequest_Vni : Z;
  CreateInterfaceRequest_Ipv4Config : option IPConfig;
  CreateInterfaceRequest_Ipv6Config : option IPConfig;
  CreateInterfaceRequest_DeviceName : string
}.

Record IpAdressMsg := { IpAdressMsg_Status : Status; IpAdressMsg_UnderlayRoute : string }.

Record CreateInterfaceResponse := { CreateInterfaceResponse_Response : IpAdressMsg }.

Record InterfaceVIPIP := {
  InterfaceVIPIP_IpVersion : IPVersion;
  InterfaceVIPIP_Address : string;
  InterfaceVIPIP_Status : Status
}.

Record InterfaceVIPMsg := { InterfaceVIPMsg_InterfaceVIPIP : InterfaceVIPIP }.

Record Prefix := {
  Prefix_IpVersion : IPVersion;
  Prefix_Address : string;
  Prefix_PrefixLength : Z
}.

(** Modelled from the spec: the reply to [ListInterfacePrefixes].  Its
    declaration is not part of the sources; the specification states that
    every RPC response carries a backend status code, so the reply is a
    status next to the prefixes [GetPrefixes] returns. *)
Record PrefixesMsg := {
  PrefixesMsg_Status : Status;
  PrefixesMsg_Prefixes : list Prefix
}.

Record InterfacePrefixMsg := {
  InterfacePrefixMsg_InterfaceID : InterfaceIDMsg;
  InterfacePrefixMsg_Prefix : Prefix
}.

Record VNIMsg := { VNIMsg_Vni : Z }.

Record Route := {
  Route_IpVersion : IPVersion;
  Route_Weight : Z;
  Route_Prefix : Prefix;
  Route_NexthopVNI : Z;
  Route_NexthopAddress : string
}.

Record VNIRouteMsg := { VNIRouteMsg_Vni : VNIMsg; VNIRouteMsg_Route : Route }.

(** [DPDKonmetalClient]: one entry per RPC the translation layer issues.
    Each call yields the transport error or the reply. *)
Record DPDKonmetalClient := {
  rpcGetInterface : InterfaceIDMsg -> result GetInterfaceResponse;
  rpcCreateInterface : CreateInterfaceRequest -> result CreateInterfaceResponse;
  rpcDeleteInterface : InterfaceIDMsg -> result Status;
  rpcGetInterfaceVIP : InterfaceIDMsg -> result InterfaceVIPIP;
  rpcAddInterfaceVIP : InterfaceVIPMsg -> result IpAdressMsg;
  rpcDeleteInterfaceVIP : InterfaceIDMsg -> result Status;
  rpcListInterfacePrefixes : InterfaceIDMsg -> result PrefixesMsg;
  rpcAddInterfacePrefix : InterfacePrefixMsg -> result IpAdressMsg;
  rpcDeleteInterfacePrefix : InterfacePrefixMsg -> result Status;
  rpcAddRoute : VNIRouteMsg -> result Status;
  rpcDeleteRoute : VNIRouteMsg -> result Status
}.

End dpdkproto.

(* ===================================================================== *)
(** * Package [dpdk]: the translation layer ([src/dpdk/client.go]) *)
(* ===================================================================== *)

Module dpdk.

Import dpdkproto.

Record RouteMetadata := { RouteMetadata_VNI : Z }.

Record RouteNextHop := { RouteNextHop_VNI : Z; RouteNextHop_Address : netip.Addr }.

Record RouteSpec := { RouteSpec_Prefix : netip.Prefix; RouteSpec_NextHop : RouteNextHop }.

Record Route := { Route_Metadata : RouteMetadata; Route_Spec : RouteSpec }.

Record PrefixMetadata := { PrefixMetadata_InterfaceUID : string }.

Record PrefixSpec := { PrefixSpec_Prefix : netip.Prefix }.

Record Prefix := { Prefix_Metadata : PrefixMetadata; Prefix_Spec : PrefixSpec }.

Record PrefixList := { PrefixList_Items : list Prefix }.

Record VirtualIPMetadata := { VirtualIPMetadata_InterfaceUID : string }.

Record VirtualIPSpec := { VirtualIPSpec_Address : netip.Addr }.

Record VirtualIP := { VirtualIP_Metadata : VirtualIPMetadata; VirtualIP_Spec : VirtualIPSpec }.

Record InterfaceMetadata := { UID : string }.

Record InterfaceSpec := {
  VNI : Z;
  Device : string;
  PrimaryIPv4Address : netip.Addr;
  PrimaryIPv6Address : netip.Addr
}.

Record InterfaceStatus := { UnderlayRoute : netip.Addr }.

Record Interface := {
  Interface_Metadata : InterfaceMetadata;
  Spec : InterfaceSpec;
  Status : InterfaceStatus
}.

Section Client.
Context `{GoText}.

(** [netip.ParseAddr] with Go's [(Addr, error)] result. *)
Definition parseAddr (s : string) : result netip.Addr :=
  match ParseAddr s with
  | Some a => Ok a
  | None => Err (ParseAddrError s)
  end.

Definition dpdkInterfaceToInterface (dpdkIface : dpdkproto.Interface) : result Interface :=
  match parseAddr (dpdkproto.PrimaryIPv4Address dpdkIface) with
  | Err err => Err (Wrapped "error parsing primary ipv4 address: " err)
  | Ok primaryIPv4Address =>
  match parseAddr (dpdkproto.PrimaryIPv4Address dpdkIface) with
  | Err err => Err (Wrapped "error parsing primary ipv6 address: " err)
  | Ok primaryIPv6Address =>
  match parseAddr (dpdkproto.UnderlayRoute dpdkIface) with
  | Err err => Err (Wrapped "error parsing underlay route: " err)
  | Ok underlayRoute =>
      Ok {| Interface_Metadata := {| UID := dpdkproto.InterfaceID dpdkIface |};
            Spec := {| VNI := dpdkproto.Vni dpdkIface;
                       Device := dpdkproto.PciDpName dpdkIface;
                       PrimaryIPv4Address := primaryIPv4Address;
                       PrimaryIPv6Address := primaryIPv6Address |};
            Status := {| UnderlayRoute := underlayRoute |} |}
  end end end.

Definition netipAddrToDPDKIPVersion (addr : netip.Addr) : IPVersion :=
  if netip.Is4 addr then IPVersion_IPv4
  else if netip.Is6 addr then IPVersion_IPv6
  else 0.

Definition netipAddrToDPDKIPConfig (addr : netip.Addr) : option IPConfig :=
  if negb (netip.IsValid addr) then None
  else Some {| IPConfig_IpVersion := netipAddrToDPDKIPVersion addr;
               IPConfig_PrimaryAddress := Addr_String addr |}.

(** [type client struct { dpdkproto.DPDKonmetalClient }]. *)
Variable c : DPDKonmetalClient.

Definition GetInterface (uid : string) : result Interface :=
  match rpcGetInterface c {| InterfaceIDMsg_InterfaceID := uid |} with
  | Err err => Err err
  | Ok res =>
      let errorCode := Status_Error (GetInterfaceResponse_Status res) in
      if negb (errorCode =? 0)
      then Err (StatusError errorCode (Status_Message (GetInterfaceResponse_Status res)))
      else dpdkInterfaceToInterface (GetInterfaceResponse_Interface res)
  end.

Definition CreateInterface (iface : Interface) : result Interface :=
  match rpcCreateInterface c
          {| CreateInterfaceRequest_InterfaceType := InterfaceType_VirtualInterface;
             CreateInterfaceRequest_InterfaceID := UID (Interface_Metadata iface);
             CreateInterfaceRequest_Vni := VNI (Spec iface);
             CreateInterfaceRequest_Ipv4Config :=
               netipAddrToDPDKIPConfig (PrimaryIPv4Address (Spec iface));
             CreateInterfaceRequest_Ipv6Config :=
               netipAddrToDPDKIPConfig (PrimaryIPv6Address (Spec iface));
             CreateInterfaceRequest_DeviceName := Device (Spec iface) |} with
  | Err err => Err err
  | Ok res =>
      let st := IpAdressMsg_Status (CreateInterfaceResponse_Response res) in
      let errorCode := Status_Error st in
      if negb (errorCode =? 0)
      then Err (StatusError errorCode (Status_Message st))
      else
        match parseAddr (IpAdressMsg_UnderlayRoute (CreateInterfaceResponse_Response res)) with
        | Err err => Err (Wrapped "error parsing underlay route: " err)
        | Ok underlayRoute =>
            Ok {| Interface_Metadata := Interface_Metadata iface;
                  Spec := Spec iface;
                  Status := {| UnderlayRoute := underlayRoute |} |}
        end
  end.

Definition DeleteInterface (uid : string) : option error :=
  match rpcDeleteInterface c {| InterfaceIDMsg_InterfaceID := uid |} with
  | Err err => Some err
  | Ok res =>
      let errorCode := Status_Error res in
      if negb (errorCode =? 0)
      then Some (StatusError errorCode (Status_Message res))
      else None
  end.

Definition dpdkVirtualIPToVirtualIP (interfaceUID : string) (dpdkVIP : InterfaceVIPIP)
  : result VirtualIP :=
  match parseAddr (InterfaceVIPIP_Address dpdkVIP) with
  | Err err => Err (Wrapped "error parsing virtual ip address: " err)
  | Ok addr =>
      Ok {| VirtualIP_Metadata := {| VirtualIPMetadata_InterfaceUID := interfaceUID |};
            VirtualIP_Spec := {| VirtualIPSpec_Address := addr |} |}
  end.

Definition GetVirtualIP (interfaceUID : string) : result VirtualIP :=
  match rpcGetInterfaceVIP c {| InterfaceIDMsg_InterfaceID := interfaceUID |} with
  | Err err => Err err
  | Ok res =>
      let errorCode := Status_Error (InterfaceVIPIP_Status res) in
      if negb (errorCode =? 0)
      then Err (StatusError errorCode (Status_Message (InterfaceVIPIP_Status res)))
      else dpdkVirtualIPToVirtualIP interfaceUID res
  end.

Definition CreateVirtualIP (virtualIP : VirtualIP) : result VirtualIP :=
  match rpcAddInterfaceVIP c
          {| InterfaceVIPMsg_InterfaceVIPIP :=
               {| InterfaceVIPIP_IpVersion :=
                    netipAddrToDPDKIPVersion (VirtualIPSpec_Address (VirtualIP_Spec virtualIP));
                  InterfaceVIPIP_Address :=
                    Addr_String (VirtualIPSpec_Address (VirtualIP_Spec virtualIP));
                  InterfaceVIPIP_Status := {| Status_Error := 0; Status_Message := "" |} |} |} with
  | Err err => Err err
  | Ok res =>
      let errorCode := Status_Error (IpAdressMsg_Status res) in
      if negb (errorCode =? 0)
      then Err (StatusError errorCode (Status_Message (IpAdressMsg_Status res)))
      else Ok virtualIP
  end.

Definition DeleteVirtualIP (interfaceUID : string) : option error :=
  match rpcDeleteInterfaceVIP c {| InterfaceIDMsg_InterfaceID := interfaceUID |} with
  | Err err => Some err
  | Ok res =>
      let errorCode := Status_Error res in
      if negb (errorCode =? 0)
      then Some (StatusError errorCode (Status_Message res))
      else None
  end.

Definition dpdkPrefixToPrefix (interfaceUID : string) (dpdkPrefix : dpdkproto.Prefix)
  : result Prefix :=
  match parseAddr (Prefix_Address dpdkPrefix) with
  | Err err => Err (Wrapped "error parsing dpdk prefix address: " err)
  | Ok addr =>
      match netip.Addr_Prefix addr (Prefix_PrefixLength dpdkPrefix) with
      | None =>
          Err (ErrorString ("invalid dpdk prefix length " ++ itoa (Prefix_PrefixLength dpdkPrefix)
                            ++ " for address " ++ Addr_String addr))
      | Some prefix =>
          Ok {| Prefix_Metadata := {| PrefixMetadata_InterfaceUID := interfaceUID |};
                Prefix_Spec := {| PrefixSpec_Prefix := prefix |} |}
      end
  end.

(** The loop of [ListPrefixes]: [prefixes] accumulates the converted
    entries; the first conversion error ends the call. *)
Fixpoint ListPrefixes_loop (interfaceUID : string) (dpdkPrefixes : list dpdkproto.Prefix)
    (prefixes : list Prefix) : result PrefixList :=
  match dpdkPrefixes with
  | [] => Ok {| PrefixList_Items := prefixes |}
  | dpdkPrefix :: rest =>
      match dpdkPrefixToPrefix interfaceUID dpdkPrefix with
      | Err err => Err err
      | Ok prefix => ListPrefixes_loop interfaceUID rest (prefixes ++ [prefix])
      end
  end.

Definition ListPrefixes (interfaceUID : string) : result PrefixList :=
  match rpcListInterfacePrefixes c {| InterfaceIDMsg_InterfaceID := interfaceUID |} with
  | Err err => Err err
  | Ok res => ListPrefixes_loop interfaceUID (PrefixesMsg_Prefixes res) []
  end.

Definition CreatePrefix (prefix : Prefix) : result Prefix :=
  let p := PrefixSpec_Prefix (Prefix_Spec prefix) in
  match rpcAddInterfacePrefix c
          {| InterfacePrefixMsg_InterfaceID :=
               {| InterfaceIDMsg_InterfaceID := PrefixMetadata_InterfaceUID (Prefix_Metadata prefix) |};
             InterfacePrefixMsg_Prefix :=
               {| Prefix_IpVersion := netipAddrToDPDKIPVersion (netip.Prefix_Addr p);
                  Prefix_Address := Addr_String (netip.Prefix_Addr p);
                  Prefix_PrefixLength := uint32 (netip.Prefix_Bits p) |} |} with
  | Err err => Err err
  | Ok res =>
      let errorCode := Status_Error (IpAdressMsg_Status res) in
      if negb (errorCode =? 0)
      then Err (StatusError errorCode (Status_Message (IpAdressMsg_Status res)))
      else Ok prefix
  end.

Definition DeletePrefix (interfaceUID : string) (prefix : netip.Prefix) : option error :=
  match rpcDeleteInterfacePrefix c
          {| InterfacePrefixMsg_InterfaceID := {| InterfaceIDMsg_InterfaceID := interfaceUID |};
             InterfacePrefixMsg_Prefix :=
               {| Prefix_IpVersion := netipAddrToDPDKIPVersion (netip.Prefix_Addr prefix);
                  Prefix_Address := Addr_String (netip.Prefix_Addr prefix);
                  Prefix_PrefixLength := uint32 (netip.Prefix_Bits prefix) |} |} with
  | Err err => Some err
  | Ok res =>
      let errorCode := Status_Error res in
      if negb (errorCode =? 0)
      then Some (StatusError errorCode (Status_Message res))
      else None
  end.

(** The request both [CreateRoute] and [DeleteRoute] build from a route. *)
Definition routeMsg (route : Route) : VNIRouteMsg :=
  let spec := Route_Spec route in
  {| VNIRouteMsg_Vni := {| VNIMsg_Vni := RouteMetadata_VNI (Route_Metadata route) |};
     VNIRouteMsg_Route :=
       {| Route_IpVersion := netipAddrToDPDKIPVersion (RouteNextHop_Address (RouteSpec_NextHop spec));
          Route_Weight := 100;
          Route_Prefix :=
            {| Prefix_IpVersion := netipAddrToDPDKIPVersion (netip.Prefix_Addr (RouteSpec_Prefix spec));
               Prefix_Address := Prefix_String (RouteSpec_Prefix spec);
               Prefix_PrefixLength := uint32 (netip.Prefix_Bits (RouteSpec_Prefix spec)) |};
          Route_NexthopVNI := RouteNextHop_VNI (RouteSpec_NextHop spec);
          Route_NexthopAddress := Addr_String (RouteNextHop_Address (RouteSpec_NextHop spec)) |} |}.

Definition CreateRoute (route : Route) : result Route :=
  match rpcAddRoute c (routeMsg route) with
  | Err err => Err err
  | Ok res =>
      let errorCode := Status_Error res in
      if negb (errorCode =? 0)
      then Err (StatusError errorCode (Status_Message res))
      else Ok route
  end.

Definition DeleteRoute (route : Route) : option error :=
  match rpcDeleteRoute c (routeMsg route) with
  | Err err => Some err
  | Ok res =>
      let errorCode := Status_Error res in
      if negb (errorCode =? 0)
      then Some (StatusError errorCode (Status_Message res))
      else None
  end.

End Client.

End dpdk.

(* ===================================================================== *)
(** * The collaborators of the realization engine *)
(* ===================================================================== *)

(** The route-propagation protocol's types ([mb], [mbproto]). *)
Module mb.

Definition VNI := Z.

Inductive IPVersion := IPV4 | IPV6.

#[global] Instance IPVersion_eq_dec : EqDecision IPVersion.
Proof. solve_decision. Defined.

Inductive NextHopType :=
| NextHopType_STANDARD
| NextHopType_NAT
| NextHopType_LOADBALANCER_TARGET.

#[global] Instance NextHopType_eq_dec : EqDecision NextHopType.
Proof. solve_decision. Defined.

Record Destination := {
  Destination_IPVersion : IPVersion;
  Destination_Prefix : netip.Prefix
}.

Record NextHop := {
  TargetAddress : netip.Addr;
  TargetVNI : Z;
  Type_ : NextHopType;
  NATPortRangeFrom : Z;
  NATPortRangeTo : Z
}.

End mb.

(** The object model of the dataplane client library the engine calls. *)
Module api.

Record RouteNextHop := { RouteNextHop_VNI : Z; RouteNextHop_IP : netip.Addr }.

Record Route := {
  RouteMeta_VNI : Z;
  RouteSpec_Prefix : netip.Prefix;
  RouteSpec_NextHop : RouteNextHop
}.

Record LoadBalancerTarget := {
  LoadbalancerID : string;
  TargetIP : netip.Addr
}.

Record NeighborNat := {
  NatIP : netip.Addr;
  NeighborNat_Vni : Z;
  MinPort : Z;
  MaxPort : Z;
  NeighborNat_UnderlayRoute : netip.Addr
}.

#[global] Instance RouteNextHop_eq_dec : EqDecision RouteNextHop.
Proof. solve_decision. Defined.
#[global] Instance Route_eq_dec : EqDecision Route.
Proof. solve_decision. Defined.
#[global] Instance LoadBalancerTarget_eq_dec : EqDecision LoadBalancerTarget.
Proof. solve_decision. Defined.
#[global] Instance NeighborNat_eq_dec : EqDecision NeighborNat.
Proof. solve_decision. Defined.

End api.

(** The backend status codes the engine names ([dpdkerrors]); their
    numeric values are the backend's and are left open. *)
Class dpdkerrors : Type := {
  ALREADY_EXISTS : Z;
  ROUTE_EXISTS : Z;
  NOT_FOUND : Z;
  NO_BACKIP : Z;
  NO_LB : Z;
  NO_VNI : Z;
  ROUTE_NOT_FOUND : Z
}.

(** ** The dataplane client

    One constructor per call the engine issues on [c.dpdk]. *)
Inductive Call : Type :=
| CallCreateLoadBalancerTarget (target : api.LoadBalancerTarget)
| CallDeleteLoadBalancerTarget (id : string) (targetIP : netip.Addr)
| CallCreateNeighborNat (nat : api.NeighborNat)
| CallDeleteNeighborNat (nat : api.NeighborNat)
| CallCreateRoute (route : api.Route)
| CallDeleteRoute (vni : Z) (prefix : netip.Prefix)
| CallListRoutes (vni : Z).

#[global] Instance Call_eq_dec : EqDecision Call.
Proof. solve_decision. Defined.

(** What comes back: the RPC fails outright, or the backend answers with
    a status code, a message and (for listings) the items. *)
Inductive Reply : Type :=
| Unreachable (msg : string)
| Answer (code : Z) (message : string) (items : list api.Route).

(** The dataplane service behind the client: any state type, any way of
    answering a call. *)
Class Dataplane : Type := {
  B : Type;
  handle : Call -> B -> Reply * B
}.

(** Modelled from the spec: the topology cache ([internal.MetalnetCache]),
    of which only the read interface is consumed.  [getPeerVNIs] gives the
    peer set of a network (empty if unknown), [getPeeredPrefixes] the
    per-peer allow-lists (absence of a key: unfiltered),
    [getLoadBalancerServer] the load balancer registered for an address.
    A peer set is kept as the list [UnsortedList] enumerates. *)
Record MetalnetCache : Type := {
  peeredVnis : gmap Z (list Z);
  peeredPrefixes : gmap Z (gmap Z (list netip.Prefix));
  loadBalancerServers : gmap (Z * string) string
}.

Definition GetPeerVnis (cache : MetalnetCache) (vni : Z) : list Z * bool :=
  match peeredVnis cache !! vni with
  | Some set => (set, true)
  | None => ([], false)
  end.

Definition GetPeeredPrefixes (cache : MetalnetCache) (vni : Z)
  : gmap Z (list netip.Prefix) * bool :=
  match peeredPrefixes cache !! vni with
  | Some m => (m, true)
  | None => (∅, false)
  end.

Definition GetLoadBalancerServer (cache : MetalnetCache) (vni : Z) (ip : string)
  : option string :=
  loadBalancerServers cache !! (vni, ip).

(** [set.Has]. *)
Definition Has (set : list Z) (x : Z) : bool := existsb (Z.eqb x) set.

(* ===================================================================== *)
(** * Package [metalbond]: the realization engine
      ([src/metalbond/metalbond_client.go]) *)
(* ===================================================================== *)

Module metalbond.

Import mb.

Section Engine.
Context `{GoText} `{dpdkerrors} `{Dataplane}.

(** The world a call runs in: the dataplane's state and the calls issued
    so far, oldest first. *)
Record World : Type := { backend : B; calls : list Call }.

(** Computations that issue dataplane calls. *)
Definition M (A : Type) : Type := World -> A * World.

Definition ret {A} (a : A) : M A := fun w => (a, w).

Definition bind {A C} (m : M A) (k : A -> M C) : M C :=
  fun w => let (a, w') := m w in k a w'.

Notation "'let*' x ':=' m 'in' k" := (bind m (fun x => k))
  (at level 10, x pattern, m at level 100, k at level 200).

(** One RPC: the call is logged and the dataplane answers. *)
Definition rpc (call : Call) : M Reply :=
  fun w => let (r, b) := handle call (backend w) in
           (r, {| backend := b; calls := calls w ++ [call] |}).

(** Modelled from the spec: the client library's handling of a reply.  A
    transport error always propagates; a non-zero status code is a typed
    status error unless it is on the allow-list the call was given
    ([dpdkerrors.Ignore]). *)
Definition replyError (ignore : list Z) (r : Reply) : option error :=
  match r with
  | Unreachable msg => Some (RPCError msg)
  | Answer code message _ =>
      if (code =? 0) || existsb (Z.eqb code) ignore then None
      else Some (StatusError code message)
  end.

Definition CreateLoadBalancerTarget (target : api.LoadBalancerTarget) (ignore : list Z)
  : M (option error) :=
  let* r := rpc (CallCreateLoadBalancerTarget target) in ret (replyError ignore r).

Definition DeleteLoadBalancerTarget (id : string) (targetIP : netip.Addr) (ignore : list Z)
  : M (option error) :=
  let* r := rpc (CallDeleteLoadBalancerTarget id targetIP) in ret (replyError ignore r).

Definition CreateNeighborNat (nat : api.NeighborNat) (ignore : list Z) : M (option error) :=
  let* r := rpc (CallCreateNeighborNat nat) in ret (replyError ignore r).

Definition DeleteNeighborNat (nat : api.NeighborNat) (ignore : list Z) : M (option error) :=
  let* r := rpc (CallDeleteNeighborNat nat) in ret (replyError ignore r).

Definition CreateRoute (route : api.Route) (ignore : list Z) : M (option error) :=
  let* r := rpc (CallCreateRoute route) in ret (replyError ignore r).

Definition DeleteRoute (vni : Z) (prefix : netip.Prefix) (ignore : list Z) : M (option error) :=
  let* r := rpc (CallDeleteRoute vni prefix) in ret (replyError ignore r).

Definition ListRoutes (vni : Z) : M (list api.Route * option error) :=
  let* r := rpc (CallListRoutes vni) in
  ret (match r with
       | Answer code _ items => if code =? 0 then (items, None) else ([], replyError [] r)
       | Unreachable _ => ([], replyError [] r)
       end).

Record ClientOptions : Type := {
  IPv4Only : bool;
  PreferredNetwork : option IPNet
}.

Record MetalnetClient : Type := {
  config : ClientOptions;
  metalnetCache : MetalnetCache
}.

Definition nonIPv4Error : error :=
  ErrorString "received non-IPv4 route will not be installed in kernel route table (IPv4-only mode)".

Definition noLoadBalancerError (vni : VNI) (ip : string) : error :=
  ErrorString ("no registered LoadBalancer on this client for vni " ++ itoa vni
               ++ " and ip " ++ ip).

(** [fmt.Errorf(text + "%w", err)] on a possibly nil [err]. *)
Definition wrapError (text : string) (err : option error) : option error :=
  match err with
  | Some e => Some (Wrapped text e)
  | None => None
  end.

Definition addLocalRoute (c : MetalnetClient) (destVni vni : VNI)
    (dest : Destination) (hop : NextHop) : M (option error) :=
  if IPv4Only (config c) && negb (bool_decide (Destination_IPVersion dest = IPV4)) then
    ret (Some nonIPv4Error)
  else if bool_decide (Type_ hop = NextHopType_LOADBALANCER_TARGET) then
    let ip := Addr_String (netip.Prefix_Addr (Destination_Prefix dest)) in
    match GetLoadBalancerServer (metalnetCache c) vni ip with
    | None => ret (Some (noLoadBalancerError vni ip))
    | Some uid =>
        let outside :=
          match PreferredNetwork (config c) with
          | Some preferred =>
              let targetAddress := ParseIP (Addr_String (TargetAddress hop)) in
              negb (IPNet_Contains preferred targetAddress)
          | None => false
          end in
        if outside then ret None
        else
          let* err := CreateLoadBalancerTarget
                        {| api.LoadbalancerID := uid; api.TargetIP := TargetAddress hop |}
                        [ALREADY_EXISTS] in
          ret (wrapError "error creating lb target: " err)
    end
  else if bool_decide (Type_ hop = NextHopType_NAT) then
    let natIP := netip.Prefix_Addr (Destination_Prefix dest) in
    let* err := CreateNeighborNat
                  {| api.NatIP := natIP;
                     api.NeighborNat_Vni := vni;
                     api.MinPort := NATPortRangeFrom hop;
                     api.MaxPort := NATPortRangeTo hop;
                     api.NeighborNat_UnderlayRoute := TargetAddress hop |}
                  [ALREADY_EXISTS] in
    ret (wrapError "error nat route: " err)
  else
    let* err := CreateRoute
                  {| api.RouteMeta_VNI := vni;
                     api.RouteSpec_Prefix := Destination_Prefix dest;
                     api.RouteSpec_NextHop :=
                       {| api.RouteNextHop_VNI := destVni;
                          api.RouteNextHop_IP := TargetAddress hop |} |}
                  [ROUTE_EXISTS] in
    ret (wrapError "error creating route: " err).

Definition removeLocalRoute (c : MetalnetClient) (destVni vni : VNI)
    (dest : Destination) (hop : NextHop) : M (option error) :=
  if IPv4Only (config c) && negb (bool_decide (Destination_IPVersion dest = IPV4)) then
    ret (Some nonIPv4Error)
  else if bool_decide (Type_ hop = NextHopType_LOADBALANCER_TARGET) then
    let ip := Addr_String (netip.Prefix_Addr (Destination_Prefix dest)) in
    match GetLoadBalancerServer (metalnetCache c) vni ip with
    | None => ret (Some (noLoadBalancerError vni ip))
    | Some uid =>
        let* err := DeleteLoadBalancerTarget uid (TargetAddress hop)
                      [NOT_FOUND; NO_BACKIP; NO_LB] in
        ret (wrapError "error deleting lb target: " err)
    end
  else if bool_decide (Type_ hop = NextHopType_NAT) then
    let natIP := netip.Prefix_Addr (Destination_Prefix dest) in
    let* err := DeleteNeighborNat
                  {| api.NatIP := natIP;
                     api.NeighborNat_Vni := vni;
                     api.MinPort := NATPortRangeFrom hop;
                     api.MaxPort := NATPortRangeTo hop;
                     api.NeighborNat_UnderlayRoute := TargetAddress hop |}
                  [NOT_FOUND] in
    ret (wrapError "error deleting nat route: " err)
  else
    let* err := DeleteRoute vni (Destination_Prefix dest) [NO_VNI; ROUTE_NOT_FOUND] in
    ret (wrapError "error deleting route: " err).

(** [errStrs = append(errStrs, err.Error())] when [err != nil]. *)
Definition appendError (errStrs : list string) (err : option error) : list string :=
  match err with
  | Some e => errStrs ++ [Error e]
  | None => errStrs
  end.

(** [errors.New(strings.Join(errStrs, "\n"))] when [len(errStrs) > 0]. *)
Definition joinErrors (errStrs : list string) : option error :=
  match errStrs with
  | [] => None
  | _ => Some (ErrorString (Join errStrs (String "010"%char "")))
  end.

(** The inner loop of [AddRoute]: [addRoute] starts false and becomes
    true, ending the loop, at the first listed prefix that contains the
    destination address. *)
Fixpoint AddRoute_allowed (allowedPeeredPrefixes : list netip.Prefix) (addr : netip.Addr)
  : bool :=
  match allowedPeeredPrefixes with
  | [] => false
  | peeredPrefix :: rest =>
      if netip.Contains peeredPrefix addr then true else AddRoute_allowed rest addr
  end.

(** The value of the flag [addRoute] for one peer. *)
Definition AddRoute_flag (ok : bool) (peeredPrefixes : gmap Z (list netip.Prefix))
    (peeredVNI : Z) (dest : Destination) : bool :=
  if ok then
    match peeredPrefixes !! peeredVNI with
    | Some allowedPeeredPrefixes =>
        AddRoute_allowed allowedPeeredPrefixes (netip.Prefix_Addr (Destination_Prefix dest))
    | None => true
    end
  else true.

(** The loop over [mbPeerVnis.UnsortedList()] in [AddRoute]. *)
Fixpoint AddRoute_loop (c : MetalnetClient) (vni : VNI) (dest : Destination) (hop : NextHop)
    (ok : bool) (peeredPrefixes : gmap Z (list netip.Prefix))
    (peers : list Z) (errStrs : list string) : M (list string) :=
  match peers with
  | [] => ret errStrs
  | peeredVNI :: rest =>
      if AddRoute_flag ok peeredPrefixes peeredVNI dest then
        let* err := addLocalRoute c vni peeredVNI dest hop in
        AddRoute_loop c vni dest hop ok peeredPrefixes rest (appendError errStrs err)
      else
        AddRoute_loop c vni dest hop ok peeredPrefixes rest errStrs
  end.

Definition AddRoute (c : MetalnetClient) (vni : VNI) (dest : Destination) (hop : NextHop)
  : M (option error) :=
  let* err := addLocalRoute c vni vni dest hop in
  let errStrs := appendError [] err in
  let* errStrs :=
    if bool_decide (Type_ hop = NextHopType_STANDARD) then
      let '(mbPeerVnis, _) := GetPeerVnis (metalnetCache c) vni in
      let '(peeredPrefixes, ok) := GetPeeredPrefixes (metalnetCache c) vni in
      AddRoute_loop c vni dest hop ok peeredPrefixes mbPeerVnis errStrs
    else ret errStrs in
  ret (joinErrors errStrs).

(** The loop over [mbPeerVnis.UnsortedList()] in [RemoveRoute]. *)
Fixpoint RemoveRoute_loop (c : MetalnetClient) (vni : VNI) (dest : Destination)
    (hop : NextHop) (peers : list Z) (errStrs : list string) : M (list string) :=
  match peers with
  | [] => ret errStrs
  | peeredVNI :: rest =>
      if bool_decide (Type_ hop = NextHopType_STANDARD) then
        let* err := removeLocalRoute c vni peeredVNI dest hop in
        RemoveRoute_loop c vni dest hop rest (appendError errStrs err)
      else
        RemoveRoute_loop c vni dest hop rest errStrs
  end.

Definition RemoveRoute (c : MetalnetClient) (vni : VNI) (dest : Destination) (hop : NextHop)
  : M (option error) :=
  let* err := removeLocalRoute c vni vni dest hop in
  let errStrs := appendError [] err in
  let '(mbPeerVnis, _) := GetPeerVnis (metalnetCache c) vni in
  let* errStrs := RemoveRoute_loop c vni dest hop mbPeerVnis errStrs in
  ret (joinErrors errStrs).

(** The condition under which [CleanupNotPeeredRoutes] deletes a listed
    route. *)
Definition Cleanup_deletes (vni : Z) (set : list Z) (ok : bool) (route : api.Route) : bool :=
  negb (api.RouteNextHop_VNI (api.RouteSpec_NextHop route) =? vni)
  && (ok && negb (Has set (api.RouteNextHop_VNI (api.RouteSpec_NextHop route)))).

(** The loop over [routes.Items] in [CleanupNotPeeredRoutes]. *)
Fixpoint Cleanup_loop (vni : Z) (set : list Z) (ok : bool) (items : list api.Route)
  : M (option error) :=
  match items with
  | [] => ret None
  | route :: rest =>
      if Cleanup_deletes vni set ok route then
        let* err := DeleteRoute vni (api.RouteSpec_Prefix route) [NO_VNI; ROUTE_NOT_FOUND] in
        match err with
        | Some e => ret (Some (Wrapped "error deleting route: " e))
        | None => Cleanup_loop vni set ok rest
        end
      else Cleanup_loop vni set ok rest
  end.

Definition CleanupNotPeeredRoutes (c : MetalnetClient) (vni : Z) : M (option error) :=
  let* (routes, err) := ListRoutes vni in
  match err with
  | Some e =>
      ret (Some (Wrapped ("error listing dpdk routes for vni " ++ itoa vni ++ ": ") e))
  | None =>
      let '(set, ok) := GetPeerVnis (metalnetCache c) vni in
      Cleanup_loop vni set ok routes
  end.

End Engine.

End metalbond.

(* ===================================================================== *)
(** * What the specification says, in its own words *)
(* ===================================================================== *)

Module fanout.

Import mb metalbond.

Section Words.
Context `{GoText} `{dpdkerrors} `{Dataplane}.

(** The allow-list configured for the pair (vni, peer), if any. *)
Definition allowList (cache : MetalnetCache) (vni peer : Z) : option (list netip.Prefix) :=
  match peeredPrefixes cache !! vni with
  | Some perPeer => perPeer !! peer
  | None => None
  end.

(** A peer receives the route when no allow-list is configured for it, or
    when the destination address falls within at least one listed prefix. *)
Definition eligiblePeer (cache : MetalnetCache) (vni : Z) (dest : Destination) (peer : Z)
  : bool :=
  match allowList cache vni peer with
  | None => true
  | Some listed =>
      existsb (fun p => netip.Contains p (netip.Prefix_Addr (Destination_Prefix dest))) listed
  end.

(** The peers currently associated with a network. *)
Definition peersOf (cache : MetalnetCache) (vni : Z) : list Z :=
  fst (GetPeerVnis cache vni).

(** The networks an announcement is realized into. *)
Definition addTargets (cache : MetalnetCache) (vni : Z) (dest : Destination) (hop : NextHop)
  : list Z :=
  match Type_ hop with
  | NextHopType_STANDARD => vni :: List.filter (eligiblePeer cache vni dest) (peersOf cache vni)
  | _ => [vni]
  end.

(** The networks a withdrawal is realized into. *)
Definition removeTargets (cache : MetalnetCache) (vni : Z) (hop : NextHop) : list Z :=
  match Type_ hop with
  | NextHopType_STANDARD => vni :: peersOf cache vni
  | _ => [vni]
  end.

(** Every attempt is made, in order, whatever the earlier ones returned;
    the outcomes are collected. *)
Fixpoint attemptAll (attempt : Z -> M (option error)) (targets : list Z)
  : M (list (option error)) :=
  match targets with
  | [] => ret []
  | v :: rest =>
      bind (attempt v) (fun r =>
      bind (attemptAll attempt rest) (fun rs => ret (r :: rs)))
  end.

(** The messages of the failed attempts, in order. *)
Definition failureMessages (outcomes : list (option error)) : list string :=
  List.map Error (omap id outcomes).

(** [nil] when no attempt failed, else one error joining all messages. *)
Definition aggregate (outcomes : list (option error)) : option error :=
  match failureMessages outcomes with
  | [] => None
  | msgs => Some (ErrorString (Join msgs (String "010"%char "")))
  end.

(** The IPv4-only gate that precedes every realization. *)
Definition rejectedByPolicy (c : MetalnetClient) (dest : Destination) : bool :=
  IPv4Only (config c) && negb (bool_decide (Destination_IPVersion dest = IPV4)).

(** The route a standard announcement installs into network [v]. *)
Definition routeFor (vni v : Z) (dest : Destination) (hop : NextHop) : api.Route :=
  {| api.RouteMeta_VNI := v;
     api.RouteSpec_Prefix := Destination_Prefix dest;
     api.RouteSpec_NextHop :=
       {| api.RouteNextHop_VNI := vni; api.RouteNextHop_IP := TargetAddress hop |} |}.

(** A load-balancer-target next-hop whose address lies outside the
    configured preferred network. *)
Definition outsidePreferred (c : MetalnetClient) (hop : NextHop) : bool :=
  match PreferredNetwork (config c) with
  | Some preferred =>
      negb (IPNet_Contains preferred (ParseIP (Addr_String (TargetAddress hop))))
  | None => false
  end.

(** A listed route is stale when its next-hop network is neither the
    network itself nor one of its current peers; with no peer set, every
    non-local route is stale. *)
Definition stale (cache : MetalnetCache) (vni : Z) (route : api.Route) : bool :=
  let nh := api.RouteNextHop_VNI (api.RouteSpec_NextHop route) in
  negb (nh =? vni)
  && match peeredVnis cache !! vni with
     | Some set => negb (Has set nh)
     | None => true
     end.

(** The dataplane's state after a sequence of calls. *)
Definition runCalls (cs : list Call) (b : B) : B :=
  fold_left (fun b' call => snd (handle call b')) cs b.

(** The same client over a cache with other peered-prefix allow-lists. *)
Definition withPeeredPrefixes (c : MetalnetClient)
    (lists : gmap Z (gmap Z (list netip.Prefix))) : MetalnetClient :=
  {| config := config c;
     metalnetCache :=
       {| peeredVnis := peeredVnis (metalnetCache c);
          peeredPrefixes := lists;
          loadBalancerServers := loadBalancerServers (metalnetCache c) |} |}.

(** The same next-hop with another target network. *)
Definition withTargetVNI (hop : NextHop) (target : Z) : NextHop :=
  {| TargetAddress := TargetAddress hop;
     TargetVNI := target;
     Type_ := Type_ hop;
     NATPortRangeFrom := NATPortRangeFrom hop;
     NATPortRangeTo := NATPortRangeTo hop |}.

(** The calls logged between world [w] and a later world [w']. *)
Definition issuedSince (w w' : World) : list Call :=
  skipn (length (calls w)) (calls w').

(** The NAT mapping a NAT announcement names in network [vni]. *)
Definition natFor (vni : Z) (dest : Destination) (hop : NextHop) : api.NeighborNat :=
  {| api.NatIP := netip.Prefix_Addr (Destination_Prefix dest);
     api.NeighborNat_Vni := vni;
     api.MinPort := NATPortRangeFrom hop;
     api.MaxPort := NATPortRangeTo hop;
     api.NeighborNat_UnderlayRoute := TargetAddress hop |}.


(** The text of the error a failed listing is wrapped in. *)
Definition listingErrorText (vni : Z) : string :=
  "error listing dpdk routes for vni " ++ itoa vni ++ ": ".

End Words.

End fanout.

(* ===================================================================== *)
(** * Sample instances, for running the code on concrete inputs *)
(* ===================================================================== *)

Module sample.

(** Sample numbering of the backend status codes: distinct, non-zero. *)
#[export] Instance codes : dpdkerrors := {|
  ALREADY_EXISTS := 202;
  ROUTE_EXISTS := 301;
  NOT_FOUND := 201;
  NO_BACKIP := 421;
  NO_LB := 422;
  NO_VNI := 205;
  ROUTE_NOT_FOUND := 302
|}.

Definition isDigit (ch : ascii) : bool :=
  let n := Z.of_N (N_of_ascii ch) in (48 <=? n) && (n <=? 57).

Definition digitValue (ch : ascii) : Z := Z.of_N (N_of_ascii ch) - 48.

(** The dotted-quad branch of [netip.ParseAddr]: four decimal fields of
    at most 255, no leading zero, no empty field. *)
Fixpoint parseIPv4_loop (s : string) (first prevDot : bool) (fields val pos digLen : Z)
  : option netip.Addr :=
  match s with
  | EmptyString => if pos <? 3 then None else Some (netip.Addr4 (fields * 256 + val))
  | String ch rest =>
      if isDigit ch then
        if (digLen =? 1) && (val =? 0) then None
        else
          let val' := val * 10 + digitValue ch in
          if 255 <? val' then None
          else parseIPv4_loop rest false false fields val' pos (digLen + 1)
      else if bool_decide (ch = "."%char) then
        if first || bool_decide (rest = EmptyString) || prevDot then None
        else if pos =? 3 then None
        else parseIPv4_loop rest false true (fields * 256 + val) 0 (pos + 1) 0
      else None
  end.

Definition parseIPv4 (s : string) : option netip.Addr :=
  parseIPv4_loop s true false 0 0 0 0.

(** Which kind of text is it: the first of '.', ':' and '%' decides. *)
Fixpoint firstSeparator (s : string) : option ascii :=
  match s with
  | EmptyString => None
  | String ch rest =>
      if bool_decide (ch = "."%char) || bool_decide (ch = ":"%char)
         || bool_decide (ch = "%"%char)
      then Some ch else firstSeparator rest
  end.

(** [netip.ParseAddr] on IPv4 text; IPv6 text is outside this instance
    and is refused. *)
Definition parseAddr4 (s : string) : option netip.Addr :=
  match firstSeparator s with
  | Some ch => if bool_decide (ch = "."%char) then parseIPv4 s else None
  | None => None
  end.

(** [netip.Addr.String] on IPv4 addresses and on the zero address; an
    IPv6 address is printed as its 128-bit value. *)
Definition string4 (a : netip.Addr) : string :=
  match a with
  | netip.AddrZero => "invalid IP"
  | netip.Addr4 x =>
      (itoa (Z.shiftr x 24 mod 256) ++ "." ++ itoa (Z.shiftr x 16 mod 256) ++ "."
       ++ itoa (Z.shiftr x 8 mod 256) ++ "." ++ itoa (x mod 256))%string
  | netip.Addr6 x => ("ip6:" ++ itoa x)%string
  end.

#[export] Instance text : GoText := {|
  ParseAddr := parseAddr4;
  Addr_String := string4;
  Prefix_String := fun p => (string4 (netip.ip p) ++ "/" ++ itoa (netip.bits p))%string;
  IP := option netip.Addr;
  IPNet := netip.Prefix;
  ParseIP := parseAddr4;
  IPNet_Contains := fun n ip => match ip with Some a => netip.Contains n a | None => false end;
  StatusError_Error := fun code message =>
    ("[error code " ++ itoa code ++ "] " ++ message)%string;
  ParseAddrError_Error := fun input => ("ParseAddr(" ++ input ++ "): unable to parse IP")%string
|}.

(** ** A reference dataplane

    A model of the external dataplane service, for statements about the
    routes that end up installed: one route per (network, destination
    prefix); creating a route that is there answers ROUTE_EXISTS, deleting
    one that is not answers ROUTE_NOT_FOUND.  Calls on the keys in
    [faults] fail with a status code that is on no allow-list, which
    simulates a backend error.  Load-balancer-target and NAT calls are
    answered with success and keep no state. *)
Record RefState : Type := {
  installed : list api.Route;
  faults : list (Z * netip.Prefix)
}.

Definition BACKEND_FAILURE : Z := 500.

Definition routeKey (r : api.Route) : Z * netip.Prefix :=
  (api.RouteMeta_VNI r, api.RouteSpec_Prefix r).

Definition hasKey (k : Z * netip.Prefix) (r : api.Route) : bool :=
  bool_decide (routeKey r = k).

Definition faulty (st : RefState) (k : Z * netip.Prefix) : bool :=
  existsb (fun k' => bool_decide (k' = k)) (faults st).

Definition hasRoute (st : RefState) (k : Z * netip.Prefix) : bool :=
  existsb (hasKey k) (installed st).

(** The routes installed in one network. *)
Definition routesOf (st : RefState) (vni : Z) : list api.Route :=
  List.filter (fun r => api.RouteMeta_VNI r =? vni) (installed st).

Definition refHandle (call : Call) (st : RefState) : Reply * RefState :=
  match call with
  | CallCreateRoute route =>
      if faulty st (routeKey route) then (Answer BACKEND_FAILURE "backend failure" [], st)
      else if hasRoute st (routeKey route) then (Answer ROUTE_EXISTS "route exists" [], st)
      else (Answer 0 "" [], {| installed := installed st ++ [route]; faults := faults st |})
  | CallDeleteRoute vni prefix =>
      if faulty st (vni, prefix) then (Answer BACKEND_FAILURE "backend failure" [], st)
      else if hasRoute st (vni, prefix) then
        (Answer 0 "" [],
         {| installed := List.filter (fun r => negb (hasKey (vni, prefix) r)) (installed st);
            faults := faults st |})
      else (Answer ROUTE_NOT_FOUND "route not found" [], st)
  | CallListRoutes vni => (Answer 0 "" (routesOf st vni), st)
  | _ => (Answer 0 "" [], st)
  end.

#[export] Instance dataplane : Dataplane := {| B := RefState; handle := refHandle |}.

(** ** The topology of the specification's examples

    Network 100 is peered with 200 (no prefix filter) and with 300
    (filter 10.0.0.0/24). *)
Definition prefix24 : netip.Prefix := netip.PrefixFrom (netip.ipv4 10 0 0 0) 24.

Definition cache100 : MetalnetCache := {|
  peeredVnis := {[ 100 := [200; 300] ]};
  peeredPrefixes := {[ 100 := {[ 300 := [prefix24] ]} ]};
  loadBalancerServers := {[ (100, "10.0.0.5") := "lb-1" ]}
|}.

Definition client100 : metalbond.MetalnetClient := {|
  metalbond.config := {| metalbond.IPv4Only := true; metalbond.PreferredNetwork := None |};
  metalbond.metalnetCache := cache100
|}.

Definition dest_10_0_0_5 : mb.Destination := {|
  mb.Destination_IPVersion := mb.IPV4;
  mb.Destination_Prefix := netip.PrefixFrom (netip.ipv4 10 0 0 5) 32
|}.

Definition dest_192_168_1_1 : mb.Destination := {|
  mb.Destination_IPVersion := mb.IPV4;
  mb.Destination_Prefix := netip.PrefixFrom (netip.ipv4 192 168 1 1) 32
|}.

Definition standardHop : mb.NextHop := {|
  mb.TargetAddress := netip.ipv4 172 16 0 1;
  mb.TargetVNI := 100;
  mb.Type_ := mb.NextHopType_STANDARD;
  mb.NATPortRangeFrom := 0;
  mb.NATPortRangeTo := 0
|}.

Definition emptyState : RefState := {| installed := []; faults := [] |}.

(** A world over the reference dataplane: its state and the calls logged. *)
Definition logged (st : RefState) (log : list Call) : metalbond.World :=
  {| metalbond.backend := st; metalbond.calls := log |}.

Definition world (st : RefState) : metalbond.World := logged st [].

(** The routes left of [routes] once the route for [prefix] has been
    deleted in each network of [vnis] whose key is not in [fs]. *)
Definition dropRoutes (fs : list (Z * netip.Prefix)) (prefix : netip.Prefix) (vnis : list Z)
    (routes : list api.Route) : list api.Route :=
  List.filter
    (fun r => negb (existsb (fun v => hasKey (v, prefix) r
                                      && negb (existsb (fun k' => bool_decide (k' = (v, prefix))) fs))
                            vnis))
    routes.



(** Network 100 peered with 200 only. *)
Definition cachePeer200 : MetalnetCache := {|
  peeredVnis := {[ 100 := [200] ]};
  peeredPrefixes := ∅;
  loadBalancerServers := ∅
|}.

Definition clientPeer200 : metalbond.MetalnetClient := {|
  metalbond.config := {| metalbond.IPv4Only := true; metalbond.PreferredNetwork := None |};
  metalbond.metalnetCache := cachePeer200
|}.

(** A route installed in network 100 for 10.[n].0.0/16 whose next-hop
    lies in network [nh]. *)
Definition routeVia (n nh : Z) : api.Route := {|
  api.RouteMeta_VNI := 100;
  api.RouteSpec_Prefix := netip.PrefixFrom (netip.ipv4 10 n 0 0) 16;
  api.RouteSpec_NextHop :=
    {| api.RouteNextHop_VNI := nh; api.RouteNextHop_IP := netip.ipv4 172 16 0 1 |}
|}.

(** Network 100 holds routes whose next-hop networks are 100, 200 and 400. *)
Definition stateVia_100_200_400 : RefState := {|
  installed := [routeVia 1 100; routeVia 2 200; routeVia 4 400];
  faults := []
|}.

(** Network 100 holds three routes through network 400; the backend fails
    on the second. *)
Definition stateFailingSecond : RefState := {|
  installed := [routeVia 1 400; routeVia 2 400; routeVia 3 400];
  faults := [(100, netip.PrefixFrom (netip.ipv4 10 2 0 0) 16)]
|}.

(** The backend fails on the route for 10.0.0.5/32 in network 200. *)
Definition stateFailing200 : RefState := {|
  installed := [];
  faults := [(200, netip.PrefixFrom (netip.ipv4 10 0 0 5) 32)]
|}.

(** Another Standard next-hop: another target address and network. *)
Definition otherStandardHop : mb.NextHop := {|
  mb.TargetAddress := netip.ipv4 172 16 0 99;
  mb.TargetVNI := 777;
  mb.Type_ := mb.NextHopType_STANDARD;
  mb.NATPortRangeFrom := 0;
  mb.NATPortRangeTo := 0
|}.

(** Network 100 already holds the route for 10.0.0.5/32 that
    [standardHop] announces. *)
Definition stateWithRoute : RefState := {|
  installed :=
    [ {| api.RouteMeta_VNI := 100;
         api.RouteSpec_Prefix := netip.PrefixFrom (netip.ipv4 10 0 0 5) 32;
         api.RouteSpec_NextHop :=
           {| api.RouteNextHop_VNI := 100;
              api.RouteNextHop_IP := netip.ipv4 172 16 0 1 |} |} ];
  faults := []
|}.

(** A load-balancer-target next-hop, and a client whose preferred network
    10.255.0.0/16 does not contain its target address. *)
Definition lbHop : mb.NextHop := {|
  mb.TargetAddress := netip.ipv4 192 168 7 7;
  mb.TargetVNI := 0;
  mb.Type_ := mb.NextHopType_LOADBALANCER_TARGET;
  mb.NATPortRangeFrom := 0;
  mb.NATPortRangeTo := 0
|}.


(** ** A backend for the translation layer

    It answers every call with the given status and interface message,
    and lists no prefixes. *)
Definition answering (st : dpdkproto.Status) (iface : dpdkproto.Interface)
  : dpdkproto.DPDKonmetalClient :=
  let addressMsg :=
    {| dpdkproto.IpAdressMsg_Status := st;
       dpdkproto.IpAdressMsg_UnderlayRoute := dpdkproto.UnderlayRoute iface |} in
  {| dpdkproto.rpcGetInterface := fun _ =>
       Ok {| dpdkproto.GetInterfaceResponse_Status := st;
             dpdkproto.GetInterfaceResponse_Interface := iface |};
     dpdkproto.rpcCreateInterface := fun _ =>
       Ok {| dpdkproto.CreateInterfaceResponse_Response := addressMsg |};
     dpdkproto.rpcDeleteInterface := fun _ => Ok st;
     dpdkproto.rpcGetInterfaceVIP := fun _ =>
       Ok {| dpdkproto.InterfaceVIPIP_IpVersion := dpdkproto.IPVersion_IPv4;
             dpdkproto.InterfaceVIPIP_Address := dpdkproto.PrimaryIPv4Address iface;
             dpdkproto.InterfaceVIPIP_Status := st |};
     dpdkproto.rpcAddInterfaceVIP := fun _ => Ok addressMsg;
     dpdkproto.rpcDeleteInterfaceVIP := fun _ => Ok st;
     dpdkproto.rpcListInterfacePrefixes := fun _ =>
       Ok {| dpdkproto.PrefixesMsg_Status := st; dpdkproto.PrefixesMsg_Prefixes := [] |};
     dpdkproto.rpcAddInterfacePrefix := fun _ => Ok addressMsg;
     dpdkproto.rpcDeleteInterfacePrefix := fun _ => Ok st;
     dpdkproto.rpcAddRoute := fun _ => Ok st;
     dpdkproto.rpcDeleteRoute := fun _ => Ok st |}.

Definition statusOK : dpdkproto.Status :=
  {| dpdkproto.Status_Error := 0; dpdkproto.Status_Message := "" |}.

Definition statusNotFound : dpdkproto.Status :=
  {| dpdkproto.Status_Error := 201; dpdkproto.Status_Message := "not found" |}.

(** An interface message of an IPv4-only interface: the IPv6 field is
    empty. *)
Definition ifaceMsg : dpdkproto.Interface := {|
  dpdkproto.InterfaceID := "iface-1";
  dpdkproto.Vni := 100;
  dpdkproto.PciDpName := "0000:01:00.0_representor_vf0";
  dpdkproto.PrimaryIPv4Address := "10.0.0.1";
  dpdkproto.PrimaryIPv6Address := "";
  dpdkproto.UnderlayRoute := "10.255.0.1"
|}.

(** A backend for the translation layer that lists the given prefixes
    with status 0. *)
Definition listing (prefixes : list dpdkproto.Prefix) : dpdkproto.DPDKonmetalClient :=
  let base := answering statusOK ifaceMsg in
  {| dpdkproto.rpcGetInterface := dpdkproto.rpcGetInterface base;
     dpdkproto.rpcCreateInterface := dpdkproto.rpcCreateInterface base;
     dpdkproto.rpcDeleteInterface := dpdkproto.rpcDeleteInterface base;
     dpdkproto.rpcGetInterfaceVIP := dpdkproto.rpcGetInterfaceVIP base;
     dpdkproto.rpcAddInterfaceVIP := dpdkproto.rpcAddInterfaceVIP base;
     dpdkproto.rpcDeleteInterfaceVIP := dpdkproto.rpcDeleteInterfaceVIP base;
     dpdkproto.rpcListInterfacePrefixes := fun _ =>
       Ok {| dpdkproto.PrefixesMsg_Status := statusOK;
             dpdkproto.PrefixesMsg_Prefixes := prefixes |};
     dpdkproto.rpcAddInterfacePrefix := dpdkproto.rpcAddInterfacePrefix base;
     dpdkproto.rpcDeleteInterfacePrefix := dpdkproto.rpcDeleteInterfacePrefix base;
     dpdkproto.rpcAddRoute := dpdkproto.rpcAddRoute base;
     dpdkproto.rpcDeleteRoute := dpdkproto.rpcDeleteRoute base |}.

Definition prefixMsg (address : string) (length : Z) : dpdkproto.Prefix :=
  {| dpdkproto.Prefix_IpVersion := dpdkproto.IPVersion_IPv4;
     dpdkproto.Prefix_Address := address;
     dpdkproto.Prefix_PrefixLength := length |}.

(** A converted alias prefix of interface "iface-1". *)
Definition aliasPrefix (p : netip.Prefix) : dpdk.Prefix :=
  {| dpdk.Prefix_Metadata := {| dpdk.PrefixMetadata_InterfaceUID := "iface-1" |};
     dpdk.Prefix_Spec := {| dpdk.PrefixSpec_Prefix := p |} |}.

(** An IPv6 destination, 2001:db8::/32. *)
Definition dest_v6 : mb.Destination := {|
  mb.Destination_IPVersion := mb.IPV6;
  mb.Destination_Prefix := netip.PrefixFrom (netip.Addr6 (Z.shiftl 0x20010db8 96)) 32
|}.

(** A load-balancer-target announcement for an address with no
    registered load balancer. *)
Definition dest_10_9_9_9 : mb.Destination := {|
  mb.Destination_IPVersion := mb.IPV4;
  mb.Destination_Prefix := netip.PrefixFrom (netip.ipv4 10 9 9 9) 32
|}.

(** A NAT next-hop with the port range [1024, 2048). *)
Definition natHop : mb.NextHop := {|
  mb.TargetAddress := netip.ipv4 172 16 0 1;
  mb.TargetVNI := 0;
  mb.Type_ := mb.NextHopType_NAT;
  mb.NATPortRangeFrom := 1024;
  mb.NATPortRangeTo := 2048
|}.

(** A dataplane that gives the same reply to every call. *)
Definition answeringWith (reply : Reply) : Dataplane :=
  {| B := unit; handle := fun _ b => (reply, b) |}.

(** The initial world over such a dataplane. *)
Definition worldAnswering (reply : Reply) : @metalbond.World (answeringWith reply) :=
  @metalbond.Build_World (answeringWith reply) tt [].

(** A dataplane without faults that holds the given routes. *)
Definition stateRoutes (routes : list api.Route) : RefState :=
  {| installed := routes; faults := [] |}.

End sample.

(* ===================================================================== *)
(** * Theorems: the translation layer *)
(* ===================================================================== *)

Module dpdk_facts.

Import dpdkproto dpdk.

Section Status.
Context `{GoText}.
Variable c : DPDKonmetalClient.

Lemma nonzero_eqb (code : Z) : code <> 0 -> negb (code =? 0) = true.
Proof. intros Hne. apply negb_true_iff, Z.eqb_neq, Hne. Qed.

(** A non-zero status code in the reply to [GetInterface] comes back as a
    typed status error with that code and message. *)
Lemma GetInterface_status uid res :
  rpcGetInterface c {| InterfaceIDMsg_InterfaceID := uid |} = Ok res ->
  Status_Error (GetInterfaceResponse_Status res) <> 0 ->
  GetInterface c uid
  = Err (StatusError (Status_Error (GetInterfaceResponse_Status res))
                     (Status_Message (GetInterfaceResponse_Status res))).
Proof.
  intros Hres Hcode. unfold GetInterface. rewrite Hres. cbn zeta.
  now rewrite (nonzero_eqb _ Hcode).
Qed.

(** The same for the operations whose reply is a bare status. *)
Lemma bare_status_operations (st : dpdkproto.Status) :
  Status_Error st <> 0 ->
  (forall uid, rpcDeleteInterface c {| InterfaceIDMsg_InterfaceID := uid |} = Ok st ->
     DeleteInterface c uid = Some (StatusError (Status_Error st) (Status_Message st)))
  /\ (forall uid, rpcDeleteInterfaceVIP c {| InterfaceIDMsg_InterfaceID := uid |} = Ok st ->
     DeleteVirtualIP c uid = Some (StatusError (Status_Error st) (Status_Message st)))
  /\ (forall uid prefix, (forall req, rpcDeleteInterfacePrefix c req = Ok st) ->
     DeletePrefix c uid prefix = Some (StatusError (Status_Error st) (Status_Message st)))
  /\ (forall route, rpcAddRoute c (routeMsg route) = Ok st ->
     CreateRoute c route = Err (StatusError (Status_Error st) (Status_Message st)))
  /\ (forall route, rpcDeleteRoute c (routeMsg route) = Ok st ->
     DeleteRoute c route = Some (StatusError (Status_Error st) (Status_Message st))).
Proof.
  intros Hcode. pose proof (nonzero_eqb _ Hcode) as Hnz.
  split; [|split; [|split; [|split]]].
  - intros uid Hres. unfold DeleteInterface. rewrite Hres. cbn zeta. now rewrite Hnz.
  - intros uid Hres. unfold DeleteVirtualIP. rewrite Hres. cbn zeta. now rewrite Hnz.
  - intros uid prefix Hres. unfold DeletePrefix. rewrite Hres. cbn zeta. now rewrite Hnz.
  - intros route Hres. unfold CreateRoute. rewrite Hres. cbn zeta. now rewrite Hnz.
  - intros route Hres. unfold DeleteRoute. rewrite Hres. cbn zeta. now rewrite Hnz.
Qed.

(** And for the operations whose reply wraps the status in a message. *)
Lemma wrapped_status_operations (st : dpdkproto.Status) :
  Status_Error st <> 0 ->
  (forall iface res, (forall req, rpcCreateInterface c req = Ok res) ->
     IpAdressMsg_Status (CreateInterfaceResponse_Response res) = st ->
     CreateInterface c iface = Err (StatusError (Status_Error st) (Status_Message st)))
  /\ (forall uid res, rpcGetInterfaceVIP c {| InterfaceIDMsg_InterfaceID := uid |} = Ok res ->
     InterfaceVIPIP_Status res = st ->
     GetVirtualIP c uid = Err (StatusError (Status_Error st) (Status_Message st)))
  /\ (forall vip res, (forall req, rpcAddInterfaceVIP c req = Ok res) ->
     IpAdressMsg_Status res = st ->
     CreateVirtualIP c vip = Err (StatusError (Status_Error st) (Status_Message st)))
  /\ (forall prefix res, (forall req, rpcAddInterfacePrefix c req = Ok res) ->
     IpAdressMsg_Status res = st ->
     CreatePrefix c prefix = Err (StatusError (Status_Error st) (Status_Message st))).
Proof.
  intros Hcode. pose proof (nonzero_eqb _ Hcode) as Hnz.
  split; [|split; [|split]].
  - intros iface res Hres <-. unfold CreateInterface. rewrite Hres. cbn zeta. now rewrite Hnz.
  - intros uid res Hres <-. unfold GetVirtualIP. rewrite Hres. cbn zeta. now rewrite Hnz.
  - intros vip res Hres <-. unfold CreateVirtualIP. rewrite Hres. cbn zeta. now rewrite Hnz.
  - intros prefix res Hres <-. unfold CreatePrefix. rewrite Hres. cbn zeta. now rewrite Hnz.
Qed.

(** [ListPrefixes] never reads the status of the reply: its result is the
    conversion of the listed prefixes, whatever the status says. *)
Lemma ListPrefixes_status_unread uid res :
  rpcListInterfacePrefixes c {| InterfaceIDMsg_InterfaceID := uid |} = Ok res ->
  ListPrefixes c uid = ListPrefixes_loop uid (PrefixesMsg_Prefixes res) [].
Proof. intros Hres. unfold ListPrefixes. now rewrite Hres. Qed.

(** [dpdkInterfaceToInterface] never reads the primary IPv6 address field
    of the message. *)
Lemma dpdkInterfaceToInterface_ipv6_unread (d : dpdkproto.Interface) (text : string) :
  dpdkInterfaceToInterface
    {| dpdkproto.InterfaceID := InterfaceID d;
       dpdkproto.Vni := Vni d;
       dpdkproto.PciDpName := PciDpName d;
       dpdkproto.PrimaryIPv4Address := dpdkproto.PrimaryIPv4Address d;
       dpdkproto.PrimaryIPv6Address := text;
       dpdkproto.UnderlayRoute := dpdkproto.UnderlayRoute d |}
  = dpdkInterfaceToInterface d.
Proof. reflexivity. Qed.

(** Whenever the conversion succeeds, the returned primary IPv6 address
    equals the returned primary IPv4 address. *)
Lemma dpdkInterfaceToInterface_ipv6_is_ipv4 (d : dpdkproto.Interface) (i : Interface) :
  dpdkInterfaceToInterface d = Ok i ->
  PrimaryIPv6Address (Spec i) = PrimaryIPv4Address (Spec i)
  /\ parseAddr (dpdkproto.PrimaryIPv4Address d) = Ok (PrimaryIPv6Address (Spec i)).
Proof.
  unfold dpdkInterfaceToInterface.
  destruct (parseAddr (dpdkproto.PrimaryIPv4Address d)) as [a4|e] eqn:H4; [|discriminate].
  destruct (parseAddr (dpdkproto.UnderlayRoute d)) as [u|e]; [|discriminate].
  intros [= <-]. cbn. split; reflexivity.
Qed.

(** The request of the translation layer's [DeleteRoute] carries the
    next-hop network and the next-hop address of the route. *)
Lemma DeleteRoute_request_names_next_hop (route : Route) :
  Route_NexthopVNI (VNIRouteMsg_Route (routeMsg route))
  = RouteNextHop_VNI (RouteSpec_NextHop (Route_Spec route))
  /\ Route_NexthopAddress (VNIRouteMsg_Route (routeMsg route))
     = Addr_String (RouteNextHop_Address (RouteSpec_NextHop (Route_Spec route))).
Proof. split; reflexivity. Qed.

End Status.

(** C7 (the code at the failing input).  The backend answers
    [ListInterfacePrefixes] with status code 201 and no prefixes:
    [ListPrefixes] returns an empty list and no error, while [GetInterface]
    on a reply with the same status returns the typed status error. *)
Theorem ListPrefixes_swallows_status `{GoText} :
  ListPrefixes (sample.answering sample.statusNotFound sample.ifaceMsg) "iface-1"
  = Ok {| PrefixList_Items := [] |}
  /\ GetInterface (sample.answering sample.statusNotFound sample.ifaceMsg) "iface-1"
     = Err (StatusError 201 "not found").
Proof. split; reflexivity. Qed.

Import sample.

(** C8 (the code at the failing input).  The backend returns an interface
    whose primary IPv4 address is 10.0.0.1 and whose primary IPv6 address
    field is empty, which is no address: [GetInterface] succeeds, and the
    primary IPv6 address it returns is 10.0.0.1, the parse of the IPv4
    field. *)
Theorem GetInterface_ipv6_from_ipv4_field :
  ParseAddr (dpdkproto.PrimaryIPv6Address sample.ifaceMsg) = None
  /\ GetInterface (sample.answering sample.statusOK sample.ifaceMsg) "iface-1"
     = Ok {| Interface_Metadata := {| UID := "iface-1" |};
             Spec := {| VNI := 100;
                        Device := "0000:01:00.0_representor_vf0";
                        PrimaryIPv4Address := netip.ipv4 10 0 0 1;
                        PrimaryIPv6Address := netip.ipv4 10 0 0 1 |};
             Status := {| UnderlayRoute := netip.ipv4 10 255 0 1 |} |}.
Proof. split; vm_compute; reflexivity. Qed.

End dpdk_facts.

(* ===================================================================== *)
(** * Theorems: the realization engine, for every dataplane *)
(* ===================================================================== *)

Module engine_facts.

Import mb metalbond fanout.
Local Open Scope list_scope.

Section Generic.
Context `{GoText} `{dpdkerrors} `{Dataplane}.
Variable c : MetalnetClient.

(** ** The loops and the words of the specification *)

Lemma AddRoute_allowed_existsb (listed : list netip.Prefix) (addr : netip.Addr) :
  AddRoute_allowed listed addr = existsb (fun p => netip.Contains p addr) listed.
Proof.
  induction listed as [|p rest IH]; cbn; [reflexivity|].
  rewrite IH. now destruct (netip.Contains p addr).
Qed.

Lemma AddRoute_flag_eligible vni dest peer lists ok :
  GetPeeredPrefixes (metalnetCache c) vni = (lists, ok) ->
  AddRoute_flag ok lists peer dest = eligiblePeer (metalnetCache c) vni dest peer.
Proof.
  unfold GetPeeredPrefixes, AddRoute_flag, eligiblePeer, allowList.
  destruct (peeredPrefixes (metalnetCache c) !! vni) as [perPeer|]; intros [= <- <-].
  - destruct (perPeer !! peer); [apply AddRoute_allowed_existsb | reflexivity].
  - reflexivity.
Qed.

Lemma appendError_app (errStrs : list string) (r : option error) :
  appendError errStrs r = errStrs ++ failureMessages [r].
Proof. destruct r; cbn; [reflexivity | now rewrite app_nil_r]. Qed.

Lemma failureMessages_cons (r : option error) (rs : list (option error)) :
  failureMessages (r :: rs) = failureMessages [r] ++ failureMessages rs.
Proof. destruct r; reflexivity. Qed.

Lemma aggregate_joinErrors (rs : list (option error)) :
  aggregate rs = joinErrors (failureMessages rs).
Proof. unfold aggregate, joinErrors. now destruct (failureMessages rs). Qed.

Lemma AddRoute_loop_attempts vni dest hop ok lists peers :
  forall errStrs w,
    AddRoute_loop c vni dest hop ok lists peers errStrs w
    = let (rs, w') := attemptAll (fun v => addLocalRoute c vni v dest hop)
                        (List.filter (fun p => AddRoute_flag ok lists p dest) peers) w in
      (errStrs ++ failureMessages rs, w').
Proof.
  induction peers as [|p rest IH]; intros errStrs w; cbn.
  - unfold ret. now rewrite app_nil_r.
  - destruct (AddRoute_flag ok lists p dest); cbn.
    + unfold bind. destruct (addLocalRoute c vni p dest hop w) as [r w1].
      rewrite IH.
      destruct (attemptAll _ _ w1) as [rs w2]. unfold ret.
      now rewrite appendError_app, (failureMessages_cons r rs), app_assoc.
    + apply IH.
Qed.

Lemma RemoveRoute_loop_attempts vni dest hop peers :
  forall errStrs w,
    RemoveRoute_loop c vni dest hop peers errStrs w
    = let (rs, w') := attemptAll (fun v => removeLocalRoute c vni v dest hop)
                        (if bool_decide (Type_ hop = NextHopType_STANDARD)
                         then peers else []) w in
      (errStrs ++ failureMessages rs, w').
Proof.
  induction peers as [|p rest IH]; intros errStrs w; cbn.
  - unfold ret. destruct (bool_decide _); cbn; now rewrite app_nil_r.
  - specialize (IH). destruct (bool_decide (Type_ hop = NextHopType_STANDARD)) eqn:Hstd; cbn.
    + unfold bind. destruct (removeLocalRoute c vni p dest hop w) as [r w1].
      rewrite IH.
      destruct (attemptAll _ _ w1) as [rs w2]. unfold ret.
      now rewrite appendError_app, (failureMessages_cons r rs), app_assoc.
    + rewrite IH. reflexivity.
Qed.

(** [AddRoute] is: attempt every target of the announcement, aggregate. *)
Lemma AddRoute_attempts vni dest hop w :
  AddRoute c vni dest hop w
  = let (rs, w') := attemptAll (fun v => addLocalRoute c vni v dest hop)
                      (addTargets (metalnetCache c) vni dest hop) w in
    (aggregate rs, w').
Proof.
  unfold AddRoute, addTargets, peersOf, bind.
  destruct (Type_ hop) eqn:Hty; cbn [bool_decide attemptAll];
    try (rewrite bool_decide_eq_false_2 by discriminate);
    try (rewrite bool_decide_eq_true_2 by reflexivity).
  - destruct (GetPeerVnis (metalnetCache c) vni) as [peers okp].
    destruct (GetPeeredPrefixes (metalnetCache c) vni) as [lists ok] eqn:Hpp.
    cbn [fst]. unfold bind.
    destruct (addLocalRoute c vni vni dest hop w) as [r w1].
    rewrite AddRoute_loop_attempts.
    rewrite (List.filter_ext _ (eligiblePeer (metalnetCache c) vni dest))
      by (intros p; now apply AddRoute_flag_eligible).
    destruct (attemptAll _ _ w1) as [rs w2]. unfold ret.
    now rewrite appendError_app, app_nil_l, aggregate_joinErrors, (failureMessages_cons r rs).
  - unfold bind, ret. destruct (addLocalRoute c vni vni dest hop w) as [r w1].
    now rewrite appendError_app, app_nil_l, aggregate_joinErrors.
  - unfold bind, ret. destruct (addLocalRoute c vni vni dest hop w) as [r w1].
    now rewrite appendError_app, app_nil_l, aggregate_joinErrors.
Qed.

(** [RemoveRoute] is: attempt every target of the withdrawal, aggregate. *)
Lemma RemoveRoute_attempts vni dest hop w :
  RemoveRoute c vni dest hop w
  = let (rs, w') := attemptAll (fun v => removeLocalRoute c vni v dest hop)
                      (removeTargets (metalnetCache c) vni hop) w in
    (aggregate rs, w').
Proof.
  unfold RemoveRoute, removeTargets, peersOf, bind.
  destruct (GetPeerVnis (metalnetCache c) vni) as [peers okp]. cbn [fst].
  destruct (removeLocalRoute c vni vni dest hop w) as [r w1] eqn:Hlocal.
  unfold bind. rewrite RemoveRoute_loop_attempts.
  destruct (Type_ hop) eqn:Hty; cbn [attemptAll];
    try (rewrite bool_decide_eq_false_2 by discriminate);
    try (rewrite bool_decide_eq_true_2 by reflexivity);
    unfold bind; rewrite Hlocal; cbn [attemptAll]; unfold ret.
  - destruct (attemptAll _ _ w1) as [rs w2].
    now rewrite appendError_app, app_nil_l, aggregate_joinErrors, (failureMessages_cons r rs).
  - now rewrite appendError_app, app_nil_l, app_nil_r, aggregate_joinErrors.
  - now rewrite appendError_app, app_nil_l, app_nil_r, aggregate_joinErrors.
Qed.

(** ** Single-network realization *)

Lemma rpc_world (call : Call) (w : World) :
  rpc call w
  = (fst (handle call (backend w)),
     {| backend := snd (handle call (backend w)); calls := calls w ++ [call] |}).
Proof. unfold rpc. now destruct (handle call (backend w)). Qed.

Lemma addLocalRoute_rejected destVni vni dest hop w :
  rejectedByPolicy c dest = true ->
  addLocalRoute c destVni vni dest hop w = (Some nonIPv4Error, w).
Proof. unfold rejectedByPolicy, addLocalRoute. now intros ->. Qed.

Lemma removeLocalRoute_rejected destVni vni dest hop w :
  rejectedByPolicy c dest = true ->
  removeLocalRoute c destVni vni dest hop w = (Some nonIPv4Error, w).
Proof. unfold rejectedByPolicy, removeLocalRoute. now intros ->. Qed.

Lemma addLocalRoute_standard destVni vni dest hop w :
  Type_ hop = NextHopType_STANDARD ->
  rejectedByPolicy c dest = false ->
  let call := CallCreateRoute (routeFor destVni vni dest hop) in
  addLocalRoute c destVni vni dest hop w
  = (wrapError "error creating route: "
       (replyError [ROUTE_EXISTS] (fst (handle call (backend w)))),
     {| backend := snd (handle call (backend w)); calls := calls w ++ [call] |}).
Proof.
  unfold rejectedByPolicy, addLocalRoute. intros Hty ->. rewrite Hty.
  rewrite !bool_decide_eq_false_2 by discriminate.
  unfold CreateRoute, bind, ret. now rewrite rpc_world.
Qed.

Lemma removeLocalRoute_standard destVni vni dest hop w :
  Type_ hop = NextHopType_STANDARD ->
  rejectedByPolicy c dest = false ->
  let call := CallDeleteRoute vni (Destination_Prefix dest) in
  removeLocalRoute c destVni vni dest hop w
  = (wrapError "error deleting route: "
       (replyError [NO_VNI; ROUTE_NOT_FOUND] (fst (handle call (backend w)))),
     {| backend := snd (handle call (backend w)); calls := calls w ++ [call] |}).
Proof.
  unfold rejectedByPolicy, removeLocalRoute. intros Hty ->. rewrite Hty.
  rewrite !bool_decide_eq_false_2 by discriminate.
  unfold DeleteRoute, bind, ret. now rewrite rpc_world.
Qed.

(** A sequence of attempts each of which issues exactly one call leaves
    the world the calls lead to. *)
Lemma attemptAll_one_call_each (attempt : Z -> M (option error)) (callOf : Z -> Call) :
  (forall v w, snd (attempt v w)
               = {| backend := snd (handle (callOf v) (backend w));
                    calls := calls w ++ [callOf v] |}) ->
  forall targets w,
    snd (attemptAll attempt targets w)
    = {| backend := runCalls (List.map callOf targets) (backend w);
         calls := calls w ++ List.map callOf targets |}.
Proof.
  intros Hone. induction targets as [|v rest IH]; intros w; cbn.
  - rewrite app_nil_r. now destruct w.
  - unfold bind. specialize (Hone v w).
    destruct (attempt v w) as [r w1]. cbn in Hone. subst w1.
    specialize (IH {| backend := snd (handle (callOf v) (backend w));
                      calls := calls w ++ [callOf v] |}).
    destruct (attemptAll attempt rest _) as [rs w2]. cbn in IH |- *.
    rewrite IH. cbn. now rewrite <- app_assoc.
Qed.

(** A sequence of attempts none of which touches the world leaves it as
    it was. *)
Lemma attemptAll_no_call (attempt : Z -> M (option error)) :
  (forall v w, snd (attempt v w) = w) ->
  forall targets w, snd (attemptAll attempt targets w) = w.
Proof.
  intros Hnone. induction targets as [|v rest IH]; intros w; cbn; [reflexivity|].
  unfold bind. specialize (Hnone v w). destruct (attempt v w) as [r w1].
  cbn in Hnone. subst w1. specialize (IH w).
  now destruct (attemptAll attempt rest w) as [rs w2].
Qed.

Lemma add_attempts_world vni dest hop targets w :
  Type_ hop = NextHopType_STANDARD ->
  snd (attemptAll (fun v => addLocalRoute c vni v dest hop) targets w)
  = if rejectedByPolicy c dest then w
    else {| backend := runCalls (List.map (fun v => CallCreateRoute (routeFor vni v dest hop))
                                          targets) (backend w);
            calls := calls w
                     ++ List.map (fun v => CallCreateRoute (routeFor vni v dest hop)) targets |}.
Proof.
  intros Hty. destruct (rejectedByPolicy c dest) eqn:Hrej.
  - apply attemptAll_no_call. intros v w0. now rewrite addLocalRoute_rejected.
  - apply attemptAll_one_call_each. intros v w0. now rewrite addLocalRoute_standard.
Qed.

Lemma remove_attempts_world vni dest hop targets w :
  Type_ hop = NextHopType_STANDARD ->
  snd (attemptAll (fun v => removeLocalRoute c vni v dest hop) targets w)
  = if rejectedByPolicy c dest then w
    else {| backend := runCalls (List.map (fun v => CallDeleteRoute v (Destination_Prefix dest))
                                          targets) (backend w);
            calls := calls w
                     ++ List.map (fun v => CallDeleteRoute v (Destination_Prefix dest)) targets |}.
Proof.
  intros Hty. destruct (rejectedByPolicy c dest) eqn:Hrej.
  - apply attemptAll_no_call. intros v w0. now rewrite removeLocalRoute_rejected.
  - apply attemptAll_one_call_each. intros v w0. now rewrite removeLocalRoute_standard.
Qed.

Lemma snd_let_pair {A C D} (p : A * C) (f : A -> D) :
  snd (let (a, w') := p in (f a, w')) = snd p.
Proof. now destruct p. Qed.

(** ** C1 *)

(** C1.  For a Standard next-hop, [AddRoute] attempts the realization into
    the network itself and into exactly the peers that have no allow-list
    or whose allow-list contains the destination address; the dataplane
    calls it issues are one route creation per such network and nothing
    else (none at all when the IPv4-only gate rejects the destination),
    and the dataplane is left in the state those calls lead to. *)
Theorem AddRoute_standard_fan_out vni dest hop w :
  Type_ hop = NextHopType_STANDARD ->
  let targets :=
    vni :: List.filter (eligiblePeer (metalnetCache c) vni dest)
                       (peersOf (metalnetCache c) vni) in
  let issued :=
    if rejectedByPolicy c dest then []
    else List.map (fun v => CallCreateRoute (routeFor vni v dest hop)) targets in
  AddRoute c vni dest hop w
  = (let (rs, w') := attemptAll (fun v => addLocalRoute c vni v dest hop) targets w in
     (aggregate rs, w'))
  /\ calls (snd (AddRoute c vni dest hop w)) = calls w ++ issued
  /\ backend (snd (AddRoute c vni dest hop w)) = runCalls issued (backend w).
Proof.
  intros Hty targets issued.
  assert (Htargets : addTargets (metalnetCache c) vni dest hop = targets)
    by (unfold addTargets; now rewrite Hty).
  split; [now rewrite AddRoute_attempts, Htargets|].
  rewrite AddRoute_attempts, Htargets, snd_let_pair, (add_attempts_world _ _ _ _ _ Hty).
  subst issued. destruct (rejectedByPolicy c dest); cbn; [now rewrite app_nil_r | now split].
Qed.

(** ** C3 *)

Lemma removeLocalRoute_withPeeredPrefixes lists destVni vni dest hop :
  removeLocalRoute (withPeeredPrefixes c lists) destVni vni dest hop
  = removeLocalRoute c destVni vni dest hop.
Proof. reflexivity. Qed.

Lemma RemoveRoute_loop_withPeeredPrefixes lists vni dest hop peers :
  forall errStrs w,
    RemoveRoute_loop (withPeeredPrefixes c lists) vni dest hop peers errStrs w
    = RemoveRoute_loop c vni dest hop peers errStrs w.
Proof.
  induction peers as [|p rest IH]; intros errStrs w; cbn; [reflexivity|].
  destruct (bool_decide (Type_ hop = NextHopType_STANDARD)); [|apply IH].
  unfold bind. rewrite removeLocalRoute_withPeeredPrefixes.
  destruct (removeLocalRoute c vni p dest hop w) as [r w1]. apply IH.
Qed.

(** C3.  [RemoveRoute] with a Standard next-hop attempts the removal in
    the network itself and in every current peer, one route deletion per
    network, and the peered-prefix allow-lists play no part in it; with a
    load-balancer-target or NAT next-hop, [RemoveRoute] and [AddRoute]
    realize into the network itself only. *)
Theorem RemoveRoute_fan_out vni dest hop w :
  match Type_ hop with
  | NextHopType_STANDARD =>
      let issued :=
        if rejectedByPolicy c dest then []
        else List.map (fun v => CallDeleteRoute v (Destination_Prefix dest))
                      (vni :: peersOf (metalnetCache c) vni) in
      RemoveRoute c vni dest hop w
      = (let (rs, w') := attemptAll (fun v => removeLocalRoute c vni v dest hop)
                           (vni :: peersOf (metalnetCache c) vni) w in
         (aggregate rs, w'))
      /\ calls (snd (RemoveRoute c vni dest hop w)) = calls w ++ issued
      /\ backend (snd (RemoveRoute c vni dest hop w)) = runCalls issued (backend w)
  | _ =>
      RemoveRoute c vni dest hop w
      = (let (r, w') := removeLocalRoute c vni vni dest hop w in (aggregate [r], w'))
      /\ AddRoute c vni dest hop w
         = (let (r, w') := addLocalRoute c vni vni dest hop w in (aggregate [r], w'))
  end
  /\ forall lists,
       RemoveRoute (withPeeredPrefixes c lists) vni dest hop w = RemoveRoute c vni dest hop w.
Proof.
  split.
  - pose proof (RemoveRoute_attempts vni dest hop w) as Hrem.
    pose proof (AddRoute_attempts vni dest hop w) as Hadd.
    unfold removeTargets in Hrem. unfold addTargets in Hadd.
    destruct (Type_ hop) eqn:Hty.
    + cbn zeta. split; [exact Hrem|].
      rewrite Hrem, snd_let_pair, (remove_attempts_world _ _ _ _ _ Hty).
      destruct (rejectedByPolicy c dest); cbn; [now rewrite app_nil_r | now split].
    + split.
      * rewrite Hrem. cbn. unfold bind, ret.
        now destruct (removeLocalRoute c vni vni dest hop w).
      * rewrite Hadd. cbn. unfold bind, ret.
        now destruct (addLocalRoute c vni vni dest hop w).
    + split.
      * rewrite Hrem. cbn. unfold bind, ret.
        now destruct (removeLocalRoute c vni vni dest hop w).
      * rewrite Hadd. cbn. unfold bind, ret.
        now destruct (addLocalRoute c vni vni dest hop w).
  - intros lists. unfold RemoveRoute, bind.
    rewrite removeLocalRoute_withPeeredPrefixes.
    destruct (removeLocalRoute c vni vni dest hop w) as [r w1].
    change (GetPeerVnis (metalnetCache (withPeeredPrefixes c lists)) vni)
      with (GetPeerVnis (metalnetCache c) vni).
    destruct (GetPeerVnis (metalnetCache c) vni) as [peers okp].
    unfold bind. now rewrite RemoveRoute_loop_withPeeredPrefixes.
Qed.

(** ** C5 *)

Lemma attemptAll_app (attempt : Z -> M (option error)) (pre post : list Z) :
  forall w,
    attemptAll attempt (pre ++ post) w
    = let (rs1, w1) := attemptAll attempt pre w in
      let (rs2, w2) := attemptAll attempt post w1 in
      (rs1 ++ rs2, w2).
Proof.
  induction pre as [|v rest IH]; intros w; cbn.
  - unfold ret. now destruct (attemptAll attempt post w).
  - unfold bind, ret. destruct (attempt v w) as [r w1]. rewrite IH.
    destruct (attemptAll attempt rest w1) as [rs1 w2].
    destruct (attemptAll attempt post w2) as [rs2 w3]. reflexivity.
Qed.

Lemma attemptAll_length (attempt : Z -> M (option error)) (targets : list Z) :
  forall w, length (fst (attemptAll attempt targets w)) = length targets.
Proof.
  induction targets as [|v rest IH]; intros w; cbn; [reflexivity|].
  unfold bind. destruct (attempt v w) as [r w1]. specialize (IH w1).
  destruct (attemptAll attempt rest w1) as [rs w2]. cbn in *. now rewrite IH.
Qed.

Lemma failureMessages_nil_iff (rs : list (option error)) :
  failureMessages rs = [] <-> Forall (fun r => r = None) rs.
Proof.
  induction rs as [|r rs IH].
  - split; [constructor | reflexivity].
  - destruct r as [e|]; cbn.
    + split; [discriminate | intros Hall; inversion Hall; discriminate].
    + unfold failureMessages in IH. cbn in IH. rewrite IH.
      split; [now constructor | intros Hall; now inversion Hall].
Qed.

(** C5.  [AddRoute] and [RemoveRoute] run every per-network attempt of
    their target list in order, each in the world the previous ones left,
    whatever those returned; the result is [nil] exactly when no attempt
    failed, and otherwise one error whose text joins the messages of all
    failed attempts with newlines. *)
Theorem fan_out_collects_every_error vni dest hop w :
  AddRoute c vni dest hop w
  = (let (rs, w') := attemptAll (fun v => addLocalRoute c vni v dest hop)
                       (addTargets (metalnetCache c) vni dest hop) w in
     (aggregate rs, w'))
  /\ RemoveRoute c vni dest hop w
     = (let (rs, w') := attemptAll (fun v => removeLocalRoute c vni v dest hop)
                          (removeTargets (metalnetCache c) vni hop) w in
        (aggregate rs, w'))
  /\ (forall attempt pre v post w0,
        attemptAll attempt (pre ++ v :: post) w0
        = let (rs1, w1) := attemptAll attempt pre w0 in
          let (r, w2) := attempt v w1 in
          let (rs2, w3) := attemptAll attempt post w2 in
          (rs1 ++ r :: rs2, w3))
  /\ (forall attempt targets w0,
        length (fst (attemptAll attempt targets w0)) = length targets)
  /\ (forall rs, aggregate rs = None <-> Forall (fun r => r = None) rs)
  /\ (forall rs, aggregate rs <> None ->
        aggregate rs
        = Some (ErrorString (Join (List.map Error (omap id rs)) (String "010"%char "")))).
Proof.
  split; [apply AddRoute_attempts|].
  split; [apply RemoveRoute_attempts|].
  split.
  { intros attempt pre v post w0. rewrite attemptAll_app.
    destruct (attemptAll attempt pre w0) as [rs1 w1]. cbn. unfold bind.
    destruct (attempt v w1) as [r w2].
    now destruct (attemptAll attempt post w2) as [rs2 w3]. }
  split; [intros; apply attemptAll_length|].
  split.
  - intros rs. rewrite <- failureMessages_nil_iff. unfold aggregate.
    destruct (failureMessages rs); split; congruence.
  - intros rs. unfold aggregate, failureMessages.
    destruct (List.map Error (omap id rs)); congruence.
Qed.

(** ** C4 *)


(** ** C9 *)

(** C9, amended.  The deletion [removeLocalRoute] requests for a Standard
    next-hop names the network and the destination prefix, and nothing of
    the next-hop. *)
Theorem removeLocalRoute_delete_request destVni vni dest hop w :
  Type_ hop = NextHopType_STANDARD ->
  rejectedByPolicy c dest = false ->
  calls (snd (removeLocalRoute c destVni vni dest hop w))
  = calls w ++ [CallDeleteRoute vni (Destination_Prefix dest)].
Proof. intros Hty Hrej. now rewrite removeLocalRoute_standard. Qed.

(** ** Cleanup *)


Lemma Cleanup_loop_app vni set ok pre post :
  forall w w1,
    Cleanup_loop vni set ok pre w = (None, w1) ->
    Cleanup_loop vni set ok (pre ++ post) w = Cleanup_loop vni set ok post w1.
Proof.
  induction pre as [|route rest IH]; intros w w1; cbn.
  - unfold ret. now intros [= <-].
  - destruct (Cleanup_deletes vni set ok route); [|apply IH].
    unfold bind.
    destruct (DeleteRoute vni (api.RouteSpec_Prefix route) [NO_VNI; ROUTE_NOT_FOUND] w)
      as [[e|] w0]; [discriminate | apply IH].
Qed.

(** C10.  When the deletion of a listed stale route fails with an error
    that is not ignored, [CleanupNotPeeredRoutes] returns that one error,
    wrapped, in the world that deletion left: the deletions made for the
    earlier routes stay, and the routes listed after it cause no call. *)
Theorem Cleanup_stops_at_first_failure vni w w0 pre route post set ok w1 w2 e :
  ListRoutes vni w = ((pre ++ route :: post, None), w0) ->
  GetPeerVnis (metalnetCache c) vni = (set, ok) ->
  Cleanup_loop vni set ok pre w0 = (None, w1) ->
  Cleanup_deletes vni set ok route = true ->
  DeleteRoute vni (api.RouteSpec_Prefix route) [NO_VNI; ROUTE_NOT_FOUND] w1 = (Some e, w2) ->
  CleanupNotPeeredRoutes c vni w = (Some (Wrapped "error deleting route: " e), w2)
  /\ calls w2 = calls w1 ++ [CallDeleteRoute vni (api.RouteSpec_Prefix route)]
  /\ backend w2
     = snd (handle (CallDeleteRoute vni (api.RouteSpec_Prefix route)) (backend w1)).
Proof.
  intros Hlist Hpeers Hpre Hstale Hdel. split.
  - unfold CleanupNotPeeredRoutes, bind. rewrite Hlist, Hpeers.
    rewrite (Cleanup_loop_app _ _ _ _ _ _ _ Hpre). cbn.
    rewrite Hstale. unfold bind. now rewrite Hdel.
  - unfold DeleteRoute, bind, ret in Hdel. rewrite rpc_world in Hdel.
    injection Hdel as _ <-. split; reflexivity.
Qed.

(** A run of the loop that returns [nil] has requested the deletion of
    exactly the listed routes its condition selects, in order. *)
Lemma Cleanup_loop_calls vni set ok items :
  forall w w',
    Cleanup_loop vni set ok items w = (None, w') ->
    calls w'
    = calls w
      ++ List.map (fun r => CallDeleteRoute vni (api.RouteSpec_Prefix r))
                  (List.filter (Cleanup_deletes vni set ok) items).
Proof.
  induction items as [|route rest IH]; intros w w'; cbn [Cleanup_loop List.filter].
  - unfold ret. intros [= <-]. now rewrite app_nil_r.
  - destruct (Cleanup_deletes vni set ok route); [|apply IH].
    unfold bind.
    destruct (DeleteRoute vni (api.RouteSpec_Prefix route) [NO_VNI; ROUTE_NOT_FOUND] w)
      as [err w1] eqn:Hdel.
    unfold DeleteRoute, bind, ret in Hdel. rewrite rpc_world in Hdel.
    injection Hdel as _ Hw1. destruct err; [discriminate|].
    intros Hrest. rewrite (IH _ _ Hrest), <- Hw1. cbn. now rewrite <- app_assoc.
Qed.

(** Where the cache has a peer set, the loop's condition is the
    specification's notion of a stale route; where it has none, the loop
    deletes nothing although every non-local route is stale. *)
Lemma Cleanup_deletes_stale vni set ok route :
  GetPeerVnis (metalnetCache c) vni = (set, ok) ->
  Cleanup_deletes vni set ok route
  = (if ok then stale (metalnetCache c) vni route else false).
Proof.
  unfold GetPeerVnis, Cleanup_deletes, stale.
  destruct (peeredVnis (metalnetCache c) !! vni) as [peers|]; intros [= <- <-].
  - reflexivity.
  - cbn. now rewrite andb_false_r.
Qed.

End Generic.

End engine_facts.

(* ===================================================================== *)
(** * Theorems: the realization engine over the reference dataplane *)
(* ===================================================================== *)

Module reference_facts.

Import mb metalbond fanout sample.
Local Open Scope list_scope.

(** ** The specification's examples *)

(** Fan-out: 10.0.0.5/32 is installed into 100, 200 and 300, and
    192.168.1.1/32 into 100 and 200 only. *)
Example fan_out_example :
  List.map api.RouteMeta_VNI
    (installed (backend (snd (AddRoute client100 100 dest_10_0_0_5 standardHop
                                (world emptyState)))))
  = [100; 200; 300]
  /\ List.map api.RouteMeta_VNI
       (installed (backend (snd (AddRoute client100 100 dest_192_168_1_1 standardHop
                                   (world emptyState)))))
     = [100; 200].
Proof. split; vm_compute; reflexivity. Qed.

(** Partial failure: the backend fails in peer 200; the route is still
    installed into 100 and 300, and the call returns an error. *)
Example partial_failure_example :
  let r := AddRoute client100 100 dest_10_0_0_5 standardHop (world stateFailing200) in
  fst r = Some (ErrorString "error creating route: [error code 500] backend failure")
  /\ List.map api.RouteMeta_VNI (installed (backend (snd r))) = [100; 300]
  /\ length (calls (snd r)) = 3%nat.
Proof. repeat split; vm_compute; reflexivity. Qed.

(** Cleanup with a peer set: of the routes through 100, 200 and 400, with
    peer set {200}, exactly the one through 400 is deleted. *)
Example cleanup_example :
  let r := CleanupNotPeeredRoutes clientPeer200 100 (world stateVia_100_200_400) in
  fst r = None
  /\ calls (snd r)
     = [CallListRoutes 100; CallDeleteRoute 100 (api.RouteSpec_Prefix (routeVia 4 400))]
  /\ routesOf (backend (snd r)) 100 = [routeVia 1 100; routeVia 2 200].
Proof. repeat split; vm_compute; reflexivity. Qed.

(** ** C1: an instance *)

Lemma AddRoute_standard_fan_out_witness :
  Type_ standardHop = NextHopType_STANDARD
  /\ calls (snd (AddRoute client100 100 dest_192_168_1_1 standardHop (world emptyState)))
     = [CallCreateRoute (routeFor 100 100 dest_192_168_1_1 standardHop);
        CallCreateRoute (routeFor 100 200 dest_192_168_1_1 standardHop)].
Proof.
  split; [reflexivity|].
  exact (proj1 (proj2 (engine_facts.AddRoute_standard_fan_out client100 100 dest_192_168_1_1
                         standardHop (world emptyState) eq_refl))).
Defined.

(** ** C5: an instance *)

Lemma fan_out_collects_every_error_witness :
  aggregate [None; Some (Wrapped "error creating route: " (StatusError 500 "backend failure"));
             None] <> None
  /\ aggregate [None; Some (Wrapped "error creating route: " (StatusError 500 "backend failure"));
                None]
     = Some (ErrorString "error creating route: [error code 500] backend failure").
Proof.
  split; [vm_compute; discriminate|].
  apply (proj2 (proj2 (proj2 (proj2 (proj2
           (engine_facts.fan_out_collects_every_error client100 100 dest_10_0_0_5 standardHop
              (world stateFailing200))))))).
  vm_compute. discriminate.
Defined.

(** ** C2 *)


(** ** C4 *)



(** ** C9 *)

(** C9 fails: withdrawals that name different next-hops lead to the same
    deletion request, and on the reference dataplane the withdrawal that
    names another next-hop deletes the installed route. *)
Lemma removeLocalRoute_next_hop_not_in_request :
  TargetAddress otherStandardHop <> TargetAddress standardHop
  /\ TargetVNI otherStandardHop <> TargetVNI standardHop
  /\ calls (snd (removeLocalRoute client100 100 100 dest_10_0_0_5 otherStandardHop
                   (world stateWithRoute)))
     = calls (snd (removeLocalRoute client100 100 100 dest_10_0_0_5 standardHop
                     (world stateWithRoute)))
  /\ routesOf stateWithRoute 100 = [routeFor 100 100 dest_10_0_0_5 standardHop]
  /\ routesOf (backend (snd (removeLocalRoute client100 100 100 dest_10_0_0_5
                               otherStandardHop (world stateWithRoute)))) 100
     = [].
Proof. repeat split; try (vm_compute; reflexivity); vm_compute; discriminate. Qed.

Lemma removeLocalRoute_delete_request_witness :
  Type_ otherStandardHop = NextHopType_STANDARD
  /\ rejectedByPolicy client100 dest_10_0_0_5 = false
  /\ calls (snd (removeLocalRoute client100 100 100 dest_10_0_0_5 otherStandardHop
                   (world stateWithRoute)))
     = calls (world stateWithRoute)
       ++ [CallDeleteRoute 100 (Destination_Prefix dest_10_0_0_5)].
Proof.
  split; [reflexivity|]. split; [reflexivity|].
  apply (engine_facts.removeLocalRoute_delete_request client100 100 100 dest_10_0_0_5
           otherStandardHop (world stateWithRoute)); reflexivity.
Defined.

(** ** C10: an instance *)

Lemma Cleanup_stops_at_first_failure_witness :
  CleanupNotPeeredRoutes clientPeer200 100 (world stateFailingSecond)
  = (Some (Wrapped "error deleting route: " (StatusError 500 "backend failure")),
     logged {| installed := [routeVia 2 400; routeVia 3 400];
               faults := faults stateFailingSecond |}
            [CallListRoutes 100;
             CallDeleteRoute 100 (api.RouteSpec_Prefix (routeVia 1 400));
             CallDeleteRoute 100 (api.RouteSpec_Prefix (routeVia 2 400))]).
Proof.
  apply (engine_facts.Cleanup_stops_at_first_failure clientPeer200 100
           (world stateFailingSecond)
           (logged stateFailingSecond [CallListRoutes 100])
           [routeVia 1 400] (routeVia 2 400) [routeVia 3 400] [200] true
           (logged {| installed := [routeVia 2 400; routeVia 3 400];
                      faults := faults stateFailingSecond |}
                   [CallListRoutes 100;
                    CallDeleteRoute 100 (api.RouteSpec_Prefix (routeVia 1 400))]));
    vm_compute; reflexivity.
Defined.

(** ** C6 *)


Lemma filter_all {A} (f : A -> bool) (l : list A) :
  (forall x, In x l -> f x = true) -> List.filter f l = l.
Proof.
  induction l as [|a l IH]; intros Hall; cbn; [reflexivity|].
  rewrite (Hall a) by now left. f_equal. apply IH. intros x Hx. apply Hall. now right.
Qed.

Lemma filter_none {A} (f : A -> bool) (l : list A) :
  (forall x, In x l -> f x = false) -> List.filter f l = [].
Proof.
  induction l as [|a l IH]; intros Hnone; cbn; [reflexivity|].
  rewrite (Hnone a) by now left. apply IH. intros x Hx. apply Hnone. now right.
Qed.

Lemma existsb_false_In {A} (f : A -> bool) (l : list A) (x : A) :
  existsb f l = false -> In x l -> f x = false.
Proof.
  intros Hex Hin. destruct (f x) eqn:Hfx; [|reflexivity].
  assert (existsb f l = true) by (apply existsb_exists; eauto). congruence.
Qed.

Lemma dropRoutes_nil fs prefix routes : dropRoutes fs prefix [] routes = routes.
Proof. unfold dropRoutes. now apply filter_all. Qed.

Lemma dropRoutes_cons fs prefix v vnis routes :
  dropRoutes fs prefix (v :: vnis) routes
  = dropRoutes fs prefix vnis (dropRoutes fs prefix [v] routes).
Proof.
  unfold dropRoutes. induction routes as [|r routes IH]; [reflexivity|].
  cbn [List.filter]. rewrite IH. cbn [existsb].
  destruct (hasKey (v, prefix) r && negb (existsb (fun k' => bool_decide (k' = (v, prefix))) fs));
    cbn [orb negb List.filter]; [reflexivity|].
  now destruct (existsb _ vnis).
Qed.


(** One deletion on the reference dataplane. *)
Lemma delete_step (st : RefState) v prefix :
  snd (refHandle (CallDeleteRoute v prefix) st)
  = {| installed := dropRoutes (faults st) prefix [v] (installed st); faults := faults st |}.
Proof.
  unfold refHandle, faulty, hasRoute, dropRoutes. cbn [existsb].
  destruct (existsb (fun k' => bool_decide (k' = (v, prefix))) (faults st)) eqn:Hfault.
  - cbn [snd]. rewrite filter_all; [now destruct st|].
    intros r _. now rewrite andb_false_r.
  - destruct (existsb (hasKey (v, prefix)) (installed st)) eqn:Hhas; cbn [snd].
    + f_equal. apply List.filter_ext. intros r. now rewrite andb_true_r, orb_false_r.
    + rewrite filter_all; [now destruct st|].
      intros r Hr. now rewrite (existsb_false_In _ _ _ Hhas Hr).
Qed.

(** The deletions of one prefix in a list of networks. *)
Lemma run_deletes prefix vnis :
  forall st : RefState,
    runCalls (List.map (fun v => CallDeleteRoute v prefix) vnis) st
    = {| installed := dropRoutes (faults st) prefix vnis (installed st); faults := faults st |}.
Proof.
  induction vnis as [|v vnis IH]; intros st.
  - rewrite dropRoutes_nil. now destruct st.
  - cbn [List.map]. unfold runCalls in *. cbn [fold_left].
    change (@handle dataplane) with refHandle in *.
    rewrite delete_step, IH. cbn [installed faults]. now rewrite <- dropRoutes_cons.
Qed.

Section RoundTrip.
Context `{GoText}.
Variable c : MetalnetClient.
Variables (vni : Z) (dest : Destination) (hop : NextHop).

(** The routes a run of creations appends to the installed ones: each is
    the announced route in one of the target networks, on a key the
    backend does not fail on. *)
Lemma run_creates targets :
  forall st : RefState,
    let st' := runCalls (List.map (fun v => CallCreateRoute (routeFor vni v dest hop)) targets)
                 st in
    faults st' = faults st
    /\ exists ext,
         installed st' = installed st ++ ext
         /\ Forall (fun r => exists v, In v targets
                                       /\ r = routeFor vni v dest hop
                                       /\ faulty st (v, Destination_Prefix dest) = false)
                   ext.
Proof.
  induction targets as [|v targets IH]; intros st; cbn zeta.
  - split; [reflexivity|]. exists []. split; [now rewrite app_nil_r | constructor].
  - cbn [List.map]. unfold runCalls in *. cbn [fold_left].
    change (@handle dataplane) with refHandle in *.
    assert (Hweaken : forall s : RefState, faults s = faults st ->
              forall ext,
                Forall (fun r => exists v0, In v0 targets
                                            /\ r = routeFor vni v0 dest hop
                                            /\ faulty s (v0, Destination_Prefix dest) = false)
                       ext ->
                Forall (fun r => exists v0, In v0 (v :: targets)
                                            /\ r = routeFor vni v0 dest hop
                                            /\ faulty st (v0, Destination_Prefix dest) = false)
                       ext).
    { intros s Hs ext. apply List.Forall_impl. intros r (v0 & Hin & Hr & Hf).
      exists v0. split; [now right|]. split; [exact Hr|].
      unfold faulty in *. now rewrite <- Hs. }
    unfold refHandle at 2 4.
    change (routeKey (routeFor vni v dest hop)) with (v, Destination_Prefix dest).
    destruct (faulty st (v, Destination_Prefix dest)) eqn:Hfault; cbn [snd].
    { destruct (IH st) as (Hf & ext & Hinst & Hall).
      split; [exact Hf|]. exists ext. split; [exact Hinst|]. now apply (Hweaken st). }
    destruct (hasRoute st (v, Destination_Prefix dest)); cbn [snd].
    { destruct (IH st) as (Hf & ext & Hinst & Hall).
      split; [exact Hf|]. exists ext. split; [exact Hinst|]. now apply (Hweaken st). }
    destruct (IH {| installed := installed st ++ [routeFor vni v dest hop];
                    faults := faults st |}) as (Hf & ext & Hinst & Hall).
    cbn [installed faults] in *.
    split; [exact Hf|]. exists (routeFor vni v dest hop :: ext). split.
    + rewrite Hinst. now rewrite <- app_assoc.
    + constructor.
      * exists v. split; [now left|]. now split.
      * now apply (Hweaken {| installed := installed st ++ [routeFor vni v dest hop];
                              faults := faults st |}).
Qed.

(** On the reference dataplane, a Standard announcement leaves the routes
    of every network that is not one of its targets as they were. *)
Lemma AddRoute_other_networks_untouched (st : RefState) (log : list Call) (v : Z) :
  Type_ hop = NextHopType_STANDARD ->
  ~ In v (vni :: List.filter (eligiblePeer (metalnetCache c) vni dest)
                             (peersOf (metalnetCache c) vni)) ->
  routesOf (backend (snd (AddRoute c vni dest hop (logged st log)))) v = routesOf st v.
Proof.
  intros Hty Hv.
  rewrite (engine_facts.AddRoute_attempts c), engine_facts.snd_let_pair.
  rewrite (engine_facts.add_attempts_world c _ _ _ _ _ Hty).
  destruct (rejectedByPolicy c dest); [reflexivity|].
  cbn [backend]. unfold addTargets. rewrite Hty.
  change (backend (logged st log)) with st.
  destruct (run_creates (vni :: List.filter (eligiblePeer (metalnetCache c) vni dest)
                                            (peersOf (metalnetCache c) vni)) st)
    as (_ & ext & Hinst & Hall).
  unfold routesOf. rewrite Hinst, List.filter_app.
  rewrite (filter_none _ ext); [now rewrite app_nil_r|].
  intros r Hr. rewrite List.Forall_forall in Hall.
  destruct (Hall r Hr) as (v0 & Hv0 & -> & _). cbn.
  apply Z.eqb_neq. intros ->. now apply Hv.
Qed.


End RoundTrip.


End reference_facts.

(* ===================================================================== *)
(** * Further theorems: the translation layer *)
(* ===================================================================== *)

Module dpdk_more.

Import dpdkproto dpdk.
Local Open Scope list_scope.

Section Prefixes.
Context `{GoText}.

Lemma ListPrefixes_loop_ok uid dpdkPrefixes :
  forall acc items,
    ListPrefixes_loop uid dpdkPrefixes acc = Ok {| PrefixList_Items := items |}
    <-> exists converted,
          List.Forall2 (fun dpdkPrefix p => dpdkPrefixToPrefix uid dpdkPrefix = Ok p) dpdkPrefixes converted /\ items = acc ++ converted.
Proof.
  induction dpdkPrefixes as [|dp rest IH]; intros acc items; cbn [ListPrefixes_loop].
  - split.
    + intros [= <-]. exists []. split; [constructor | now rewrite app_nil_r].
    + intros (converted & Hall & ->). inversion Hall. now rewrite app_nil_r.
  - destruct (dpdkPrefixToPrefix uid dp) as [p|e] eqn:Hconv.
    + rewrite IH. split.
      * intros (converted & Hall & ->). exists (p :: converted).
        split; [now constructor | now rewrite <- app_assoc].
      * intros (converted & Hall & ->). inversion Hall as [|? p' ? converted' Hp Hrest]; subst.
        rewrite Hconv in Hp. injection Hp as <-.
        exists converted'. split; [exact Hrest | now rewrite <- app_assoc].
    + split; [discriminate|].
      intros (converted & Hall & _). inversion Hall as [|? p' ? ? Hp]; subst.
      rewrite Hconv in Hp. discriminate.
Qed.

Lemma dpdkPrefixToPrefix_uid uid dpdkPrefix p :
  dpdkPrefixToPrefix uid dpdkPrefix = Ok p ->
  PrefixMetadata_InterfaceUID (Prefix_Metadata p) = uid.
Proof.
  unfold dpdkPrefixToPrefix.
  destruct (parseAddr (Prefix_Address dpdkPrefix)) as [a|e]; [|discriminate].
  destruct (netip.Addr_Prefix a (Prefix_PrefixLength dpdkPrefix)); [|discriminate].
  now intros [= <-].
Qed.

(** X1.  When the listing RPC succeeds, [ListPrefixes] returns a list
    exactly when every listed prefix converts; the list then holds the
    conversions of the listed prefixes, one for one and in the listed
    order, each marked with the interface the caller asked for. *)
Theorem ListPrefixes_converts_in_order (c : DPDKonmetalClient) uid res :
  rpcListInterfacePrefixes c {| InterfaceIDMsg_InterfaceID := uid |} = Ok res ->
  forall items,
    (ListPrefixes c uid = Ok {| PrefixList_Items := items |}
     <-> List.Forall2 (fun dpdkPrefix p => dpdkPrefixToPrefix uid dpdkPrefix = Ok p) (PrefixesMsg_Prefixes res) items)
    /\ (ListPrefixes c uid = Ok {| PrefixList_Items := items |} ->
        length items = length (PrefixesMsg_Prefixes res)
        /\ List.Forall (fun p => PrefixMetadata_InterfaceUID (Prefix_Metadata p) = uid) items).
Proof.
  intros Hres items. unfold ListPrefixes. rewrite Hres.
  assert (Hiff : ListPrefixes_loop uid (PrefixesMsg_Prefixes res) []
                 = Ok {| PrefixList_Items := items |}
                 <-> List.Forall2 (fun dpdkPrefix p => dpdkPrefixToPrefix uid dpdkPrefix = Ok p) (PrefixesMsg_Prefixes res) items).
  { rewrite ListPrefixes_loop_ok. split.
    - now intros (converted & Hall & ->).
    - intros Hall. now exists items. }
  split; [exact Hiff|].
  intros Hok. apply Hiff in Hok. split.
  - symmetry. eapply List.Forall2_length, Hok.
  - clear Hiff. induction Hok as [|dp p rest items' Hp _ IH]; constructor; [|exact IH].
    now apply (dpdkPrefixToPrefix_uid uid dp).
Qed.

(** X2.  The first listed prefix that does not convert ends
    [ListPrefixes] with that prefix's error: the entries before it are
    dropped and the entries after it are not looked at. *)
Theorem ListPrefixes_first_failure (c : DPDKonmetalClient) uid res pre bad post converted e :
  rpcListInterfacePrefixes c {| InterfaceIDMsg_InterfaceID := uid |} = Ok res ->
  PrefixesMsg_Prefixes res = pre ++ bad :: post ->
  List.Forall2 (fun dpdkPrefix p => dpdkPrefixToPrefix uid dpdkPrefix = Ok p) pre converted ->
  dpdkPrefixToPrefix uid bad = Err e ->
  ListPrefixes c uid = Err e.
Proof.
  intros Hres Hlist Hpre Hbad. unfold ListPrefixes. rewrite Hres, Hlist.
  generalize (@nil Prefix) as acc. clear Hres Hlist.
  induction Hpre as [|dp p rest converted' Hp _ IH]; intros acc; cbn [app ListPrefixes_loop].
  - now rewrite Hbad.
  - rewrite Hp. apply IH.
Qed.

(** X3.  For a listed prefix whose address parses to a valid address,
    the conversion succeeds exactly when the length is within the bit
    length of the address family; the converted prefix has that length,
    the same family, and an address with the host bits cleared (taking
    the prefix of it again changes nothing).  A longer length gives the
    "invalid dpdk prefix length" error. *)
Theorem dpdkPrefixToPrefix_bounds uid (dpdkPrefix : dpdkproto.Prefix) (a : netip.Addr) :
  ParseAddr (Prefix_Address dpdkPrefix) = Some a ->
  netip.IsValid a = true ->
  0 <= Prefix_PrefixLength dpdkPrefix ->
  (Prefix_PrefixLength dpdkPrefix <= netip.BitLen a ->
     exists p,
       dpdkPrefixToPrefix uid dpdkPrefix
       = Ok {| Prefix_Metadata := {| PrefixMetadata_InterfaceUID := uid |};
               Prefix_Spec := {| PrefixSpec_Prefix := p |} |}
       /\ netip.bits p = Prefix_PrefixLength dpdkPrefix
       /\ netip.BitLen (netip.ip p) = netip.BitLen a
       /\ netip.Addr_Prefix (netip.ip p) (netip.bits p) = Some p)
  /\ (netip.BitLen a < Prefix_PrefixLength dpdkPrefix ->
      dpdkPrefixToPrefix uid dpdkPrefix
      = Err (ErrorString ("invalid dpdk prefix length " ++ itoa (Prefix_PrefixLength dpdkPrefix)
                          ++ " for address " ++ Addr_String a)%string)).
Proof.
  intros Hparse Hvalid Hnonneg.
  unfold dpdkPrefixToPrefix, parseAddr. rewrite Hparse.
  set (b := Prefix_PrefixLength dpdkPrefix) in *.
  assert (Hneg : (b <? 0) = false) by (apply Z.ltb_ge; lia).
  destruct a as [|x|x]; [discriminate| |]; unfold netip.Addr_Prefix; rewrite Hneg; cbn [netip.BitLen].
  - split; intros Hb.
    + assert (Hle : (32 <? b) = false) by (apply Z.ltb_ge; lia). rewrite Hle.
      eexists. split; [reflexivity|]. cbn [netip.bits netip.ip netip.BitLen].
      split; [reflexivity|]. split; [reflexivity|].
      rewrite Hneg, Hle. now rewrite <- Z.land_assoc, Z.land_diag.
    + assert (Hgt : (32 <? b) = true) by (apply Z.ltb_lt; lia). now rewrite Hgt.
  - split; intros Hb.
    + assert (Hle : (128 <? b) = false) by (apply Z.ltb_ge; lia). rewrite Hle.
      eexists. split; [reflexivity|]. cbn [netip.bits netip.ip netip.BitLen].
      split; [reflexivity|]. split; [reflexivity|].
      rewrite Hneg, Hle. now rewrite <- Z.land_assoc, Z.land_diag.
    + assert (Hgt : (128 <? b) = true) by (apply Z.ltb_lt; lia). now rewrite Hgt.
Qed.

End Prefixes.

Import sample.

Lemma ListPrefixes_converts_in_order_witness :
  ListPrefixes (listing [prefixMsg "10.0.1.0" 24; prefixMsg "10.0.2.7" 32]) "iface-1"
  = Ok {| PrefixList_Items :=
            [aliasPrefix (netip.PrefixFrom (netip.ipv4 10 0 1 0) 24);
             aliasPrefix (netip.PrefixFrom (netip.ipv4 10 0 2 7) 32)] |}.
Proof.
  apply (proj1 (ListPrefixes_converts_in_order
                  (listing [prefixMsg "10.0.1.0" 24; prefixMsg "10.0.2.7" 32]) "iface-1"
                  _ eq_refl _)).
  repeat constructor.
Defined.

Lemma ListPrefixes_first_failure_witness :
  ListPrefixes (listing [prefixMsg "10.0.1.0" 24; prefixMsg "10.0.2.7" 33;
                         prefixMsg "10.0.3.0" 24]) "iface-1"
  = Err (ErrorString "invalid dpdk prefix length 33 for address 10.0.2.7").
Proof.
  apply (ListPrefixes_first_failure
           (listing [prefixMsg "10.0.1.0" 24; prefixMsg "10.0.2.7" 33; prefixMsg "10.0.3.0" 24])
           "iface-1" _ [prefixMsg "10.0.1.0" 24] (prefixMsg "10.0.2.7" 33)
           [prefixMsg "10.0.3.0" 24]
           [aliasPrefix (netip.PrefixFrom (netip.ipv4 10 0 1 0) 24)] _ eq_refl eq_refl).
  - repeat constructor.
  - vm_compute. reflexivity.
Defined.

Lemma dpdkPrefixToPrefix_bounds_witness :
  (exists p,
     dpdkPrefixToPrefix "iface-1" (prefixMsg "10.0.1.77" 24) = Ok (aliasPrefix p)
     /\ netip.bits p = 24
     /\ netip.BitLen (netip.ip p) = 32
     /\ netip.Addr_Prefix (netip.ip p) (netip.bits p) = Some p)
  /\ dpdkPrefixToPrefix "iface-1" (prefixMsg "10.0.1.77" 33)
     = Err (ErrorString "invalid dpdk prefix length 33 for address 10.0.1.77").
Proof.
  split.
  - apply (proj1 (@dpdkPrefixToPrefix_bounds text "iface-1" (prefixMsg "10.0.1.77" 24)
                    (netip.ipv4 10 0 1 77) ltac:(vm_compute; reflexivity) eq_refl
                    ltac:(vm_compute; discriminate))).
    vm_compute. discriminate.
  - apply (proj2 (@dpdkPrefixToPrefix_bounds text "iface-1" (prefixMsg "10.0.1.77" 33)
                    (netip.ipv4 10 0 1 77) ltac:(vm_compute; reflexivity) eq_refl
                    ltac:(vm_compute; discriminate))).
    vm_compute. reflexivity.
Defined.

End dpdk_more.

(* ===================================================================== *)
(** * Further theorems: the realization engine, for every dataplane *)
(* ===================================================================== *)

Module engine_more.

Import mb metalbond fanout.
Local Open Scope list_scope.

Section Generic.
Context `{GoText} `{dpdkerrors} `{Dataplane}.
Variable c : MetalnetClient.

(** A reply is no error exactly when the backend answered with code 0 or
    with a code on the allow-list. *)
Lemma replyError_None (ignore : list Z) (r : Reply) :
  replyError ignore r = None
  <-> exists code message items,
        r = Answer code message items /\ (code = 0 \/ In code ignore).
Proof.
  destruct r as [msg|code message items]; cbn.
  - split; [discriminate | now intros (? & ? & ? & ? & _)].
  - destruct ((code =? 0) || existsb (Z.eqb code) ignore) eqn:Hok.
    + split; [|reflexivity]. intros _. exists code, message, items. split; [reflexivity|].
      apply orb_true_iff in Hok. destruct Hok as [Hzero|Hin].
      * left. now apply Z.eqb_eq.
      * right. apply existsb_exists in Hin. destruct Hin as (x & Hx & Heq).
        apply Z.eqb_eq in Heq. now subst.
    + split; [discriminate|]. intros (code' & ? & ? & [= <- <- <-] & Hcode).
      apply orb_false_iff in Hok. destruct Hok as [Hzero Hin]. exfalso.
      destruct Hcode as [->|Hcode]; [discriminate|].
      assert (existsb (Z.eqb code) ignore = true); [|congruence].
      apply existsb_exists. exists code. split; [exact Hcode | apply Z.eqb_refl].
Qed.

Lemma wrapError_None (text : string) (err : option error) :
  wrapError text err = None <-> err = None.
Proof. destruct err; cbn; split; congruence. Qed.

(** X4.  Replays of Standard routes are absorbed: for a Standard next-hop
    that passed the IPv4-only gate, [addLocalRoute] returns [nil] exactly
    when the backend answered the creation with code 0 or ROUTE_EXISTS,
    and [removeLocalRoute] returns [nil] exactly when the backend answered
    the deletion with code 0, NO_VNI or ROUTE_NOT_FOUND; an RPC that
    fails outright is an error in both. *)
Theorem standard_route_replay_is_absorbed destVni vni dest hop w :
  Type_ hop = NextHopType_STANDARD ->
  rejectedByPolicy c dest = false ->
  (fst (addLocalRoute c destVni vni dest hop w) = None
   <-> exists code message items,
         fst (handle (CallCreateRoute (routeFor destVni vni dest hop)) (backend w))
         = Answer code message items
         /\ (code = 0 \/ code = ROUTE_EXISTS))
  /\ (fst (removeLocalRoute c destVni vni dest hop w) = None
      <-> exists code message items,
            fst (handle (CallDeleteRoute vni (Destination_Prefix dest)) (backend w))
            = Answer code message items
            /\ (code = 0 \/ code = NO_VNI \/ code = ROUTE_NOT_FOUND)).
Proof.
  intros Hty Hrej. split.
  - rewrite (engine_facts.addLocalRoute_standard c _ _ _ _ _ Hty Hrej). cbn [fst].
    rewrite wrapError_None, replyError_None.
    split; intros (code & message & items & Hr & Hcode); exists code, message, items;
      (split; [exact Hr|]); cbn in *; intuition congruence.
  - rewrite (engine_facts.removeLocalRoute_standard c _ _ _ _ _ Hty Hrej). cbn [fst].
    rewrite wrapError_None, replyError_None.
    split; intros (code & message & items & Hr & Hcode); exists code, message, items;
      (split; [exact Hr|]); cbn in *; intuition congruence.
Qed.

(** ** The IPv4-only gate *)

Lemma attemptAll_constant (attempt : Z -> M (option error)) (r : option error) :
  (forall v w, attempt v w = (r, w)) ->
  forall targets w, attemptAll attempt targets w = (List.repeat r (length targets), w).
Proof.
  intros Hconst. induction targets as [|v rest IH]; intros w; cbn; [reflexivity|].
  unfold bind, ret. now rewrite Hconst, IH.
Qed.

Lemma aggregate_repeat (e : error) (n : nat) :
  aggregate (List.repeat (Some e) (S n))
  = Some (ErrorString (Join (List.repeat (Error e) (S n)) (String "010"%char ""))).
Proof.
  unfold aggregate, failureMessages.
  assert (Hmsgs : forall k, List.map Error (omap id (List.repeat (Some e) k))
                            = List.repeat (Error e) k).
  { induction k as [|k IH]; cbn; [reflexivity | now rewrite <- IH]. }
  now rewrite Hmsgs.
Qed.

(** X5.  In IPv4-only mode a destination that is not IPv4 is refused by
    [AddRoute] and [RemoveRoute] for every kind of next-hop: the world
    is untouched (no dataplane call, no cache-dependent effect), and the
    error repeats the policy message once per network the event would
    have been realized into. *)
Theorem IPv4Only_refuses_without_calls vni dest hop w :
  rejectedByPolicy c dest = true ->
  AddRoute c vni dest hop w
  = (Some (ErrorString
             (Join (List.repeat (Error nonIPv4Error)
                                (length (addTargets (metalnetCache c) vni dest hop)))
                   (String "010"%char ""))),
     w)
  /\ RemoveRoute c vni dest hop w
     = (Some (ErrorString
                (Join (List.repeat (Error nonIPv4Error)
                                   (length (removeTargets (metalnetCache c) vni hop)))
                      (String "010"%char ""))),
        w).
Proof.
  intros Hrej. split.
  - rewrite (engine_facts.AddRoute_attempts c).
    rewrite (attemptAll_constant _ (Some nonIPv4Error))
      by (intros v w0; now apply engine_facts.addLocalRoute_rejected).
    assert (Hlen : exists n, length (addTargets (metalnetCache c) vni dest hop) = S n)
      by (unfold addTargets; destruct (Type_ hop); cbn; eauto).
    destruct Hlen as [n ->]. now rewrite aggregate_repeat.
  - rewrite (engine_facts.RemoveRoute_attempts c).
    rewrite (attemptAll_constant _ (Some nonIPv4Error))
      by (intros v w0; now apply engine_facts.removeLocalRoute_rejected).
    assert (Hlen : exists n, length (removeTargets (metalnetCache c) vni hop) = S n)
      by (unfold removeTargets; destruct (Type_ hop); cbn; eauto).
    destruct Hlen as [n ->]. now rewrite aggregate_repeat.
Qed.

(** ** A load balancer that is not registered *)

(** X6.  A load-balancer-target event for a destination address with no
    load balancer registered in the network fails, on the add and on the
    remove path, with the "no registered LoadBalancer" error naming the
    network and the address, and issues no dataplane call. *)
Theorem unregistered_load_balancer_is_an_error vni dest hop w :
  Type_ hop = NextHopType_LOADBALANCER_TARGET ->
  rejectedByPolicy c dest = false ->
  GetLoadBalancerServer (metalnetCache c) vni
    (Addr_String (netip.Prefix_Addr (Destination_Prefix dest))) = None ->
  AddRoute c vni dest hop w
  = (Some (noLoadBalancerError vni
             (Addr_String (netip.Prefix_Addr (Destination_Prefix dest)))), w)
  /\ RemoveRoute c vni dest hop w
     = (Some (noLoadBalancerError vni
                (Addr_String (netip.Prefix_Addr (Destination_Prefix dest)))), w).
Proof.
  unfold rejectedByPolicy. intros Hty Hrej Hlb. split.
  - rewrite (engine_facts.AddRoute_attempts c). unfold addTargets. rewrite Hty.
    cbn [attemptAll]. unfold bind, ret, addLocalRoute. rewrite Hrej, Hty, Hlb.
    rewrite bool_decide_eq_true_2 by reflexivity. reflexivity.
  - rewrite (engine_facts.RemoveRoute_attempts c). unfold removeTargets. rewrite Hty.
    cbn [attemptAll]. unfold bind, ret, removeLocalRoute. rewrite Hrej, Hty, Hlb.
    rewrite bool_decide_eq_true_2 by reflexivity. reflexivity.
Qed.

(** ** What the engine does not read *)

(** X7.  The target network carried by the next-hop is never read: the
    outcome of [AddRoute] and of [RemoveRoute] is the same whatever
    [TargetVNI] the next-hop names (the next-hop network written into
    installed routes is the announcing network). *)
Theorem TargetVNI_is_never_read vni dest hop target w :
  AddRoute c vni dest (withTargetVNI hop target) w = AddRoute c vni dest hop w
  /\ RemoveRoute c vni dest (withTargetVNI hop target) w = RemoveRoute c vni dest hop w.
Proof.
  split.
  - now rewrite !(engine_facts.AddRoute_attempts c).
  - now rewrite !(engine_facts.RemoveRoute_attempts c).
Qed.


(** ** The calls of a Standard announcement and of its withdrawal *)

Lemma AddRoute_standard_fan_out_calls vni dest hop w :
  Type_ hop = NextHopType_STANDARD ->
  calls (snd (AddRoute c vni dest hop w))
  = calls w
    ++ (if rejectedByPolicy c dest then []
        else List.map (fun v => CallCreateRoute (routeFor vni v dest hop))
                      (vni :: List.filter (eligiblePeer (metalnetCache c) vni dest)
                                          (peersOf (metalnetCache c) vni)))
  /\ forall v,
       In v (vni :: List.filter (eligiblePeer (metalnetCache c) vni dest)
                                (peersOf (metalnetCache c) vni)) ->
       In v (vni :: peersOf (metalnetCache c) vni).
Proof.
  intros Hty. split.
  - rewrite (engine_facts.AddRoute_attempts c), engine_facts.snd_let_pair.
    rewrite (engine_facts.add_attempts_world c _ _ _ _ _ Hty).
    unfold addTargets. rewrite Hty.
    destruct (rejectedByPolicy c dest); cbn; [now rewrite app_nil_r | reflexivity].
  - intros v [<-|Hv]; [now left|]. right. apply List.filter_In in Hv. tauto.
Qed.

Lemma RemoveRoute_standard_calls vni dest hop w :
  Type_ hop = NextHopType_STANDARD ->
  calls (snd (RemoveRoute c vni dest hop w))
  = calls w
    ++ (if rejectedByPolicy c dest then []
        else List.map (fun v => CallDeleteRoute v (Destination_Prefix dest))
                      (vni :: peersOf (metalnetCache c) vni)).
Proof.
  intros Hty.
  rewrite (engine_facts.RemoveRoute_attempts c), engine_facts.snd_let_pair.
  rewrite (engine_facts.remove_attempts_world c _ _ _ _ _ Hty).
  unfold removeTargets. rewrite Hty.
  destruct (rejectedByPolicy c dest); cbn; [now rewrite app_nil_r | reflexivity].
Qed.

(** A run of the cleanup loop that returns [nil] leaves the dataplane in
    the state the deletions it requested lead to. *)
Lemma Cleanup_loop_backend vni set ok items :
  forall w w',
    Cleanup_loop vni set ok items w = (None, w') ->
    backend w'
    = runCalls (List.map (fun r => CallDeleteRoute vni (api.RouteSpec_Prefix r))
                         (List.filter (Cleanup_deletes vni set ok) items))
               (backend w).
Proof.
  induction items as [|route rest IH]; intros w w'; cbn [Cleanup_loop List.filter].
  - unfold ret. now intros [= <-].
  - destruct (Cleanup_deletes vni set ok route); [|apply IH].
    unfold bind.
    destruct (DeleteRoute vni (api.RouteSpec_Prefix route) [NO_VNI; ROUTE_NOT_FOUND] w)
      as [err w1] eqn:Hdel.
    unfold DeleteRoute, bind, ret in Hdel. rewrite engine_facts.rpc_world in Hdel.
    injection Hdel as _ Hw1. destruct err; [discriminate|].
    intros Hrest. rewrite (IH _ _ Hrest), <- Hw1. reflexivity.
Qed.

(** ** Announcement and withdrawal *)

Lemma issuedSince_app (w w' : World) (issued : list Call) :
  calls w' = calls w ++ issued -> issuedSince w w' = issued.
Proof.
  unfold issuedSince. intros ->.
  rewrite List.skipn_app, List.skipn_all, Nat.sub_diag. reflexivity.
Qed.

(** X8.  Every route that [AddRoute] asks the dataplane to create for a
    Standard announcement is a route that [RemoveRoute], called with the
    same arguments over the same cache, asks the dataplane to delete: the
    same network and the same destination prefix. *)
Theorem every_created_route_is_deleted_on_withdrawal vni dest hop w w' route :
  Type_ hop = NextHopType_STANDARD ->
  In (CallCreateRoute route) (issuedSince w (snd (AddRoute c vni dest hop w))) ->
  In (CallDeleteRoute (api.RouteMeta_VNI route) (api.RouteSpec_Prefix route))
     (issuedSince w' (snd (RemoveRoute c vni dest hop w'))).
Proof.
  intros Hty Hin.
  destruct (AddRoute_standard_fan_out_calls vni dest hop w Hty) as [Hadd Hsub].
  pose proof (RemoveRoute_standard_calls vni dest hop w' Hty) as Hrem.
  rewrite (issuedSince_app _ _ _ Hadd) in Hin.
  rewrite (issuedSince_app _ _ _ Hrem).
  destruct (rejectedByPolicy c dest); [destruct Hin|].
  apply List.in_map_iff in Hin. destruct Hin as (v & [= <-] & Hv).
  unfold routeFor. cbn [api.RouteMeta_VNI api.RouteSpec_Prefix].
  apply List.in_map_iff. exists v. split; [reflexivity|]. now apply Hsub.
Qed.

(** ** NAT mappings *)

(** X9.  For a NAT next-hop that passed the IPv4-only gate, the add path
    issues exactly one NAT-mapping creation and the remove path exactly
    one NAT-mapping deletion, and both name the same mapping: the
    destination address, the effective network, the port range and the
    target address of the next-hop.  "Already exists" on creation and
    "not found" on deletion are absorbed. *)
Theorem nat_mapping_is_created_and_deleted_alike destVni vni dest hop w :
  Type_ hop = NextHopType_NAT ->
  rejectedByPolicy c dest = false ->
  addLocalRoute c destVni vni dest hop w
  = (wrapError "error nat route: "
       (replyError [ALREADY_EXISTS]
          (fst (handle (CallCreateNeighborNat (natFor vni dest hop)) (backend w)))),
     {| backend := snd (handle (CallCreateNeighborNat (natFor vni dest hop)) (backend w));
        calls := calls w ++ [CallCreateNeighborNat (natFor vni dest hop)] |})
  /\ removeLocalRoute c destVni vni dest hop w
     = (wrapError "error deleting nat route: "
          (replyError [NOT_FOUND]
             (fst (handle (CallDeleteNeighborNat (natFor vni dest hop)) (backend w)))),
        {| backend := snd (handle (CallDeleteNeighborNat (natFor vni dest hop)) (backend w));
           calls := calls w ++ [CallDeleteNeighborNat (natFor vni dest hop)] |}).
Proof.
  unfold rejectedByPolicy. intros Hty Hrej. split.
  - unfold addLocalRoute. rewrite Hrej, Hty.
    rewrite bool_decide_eq_false_2 by discriminate.
    rewrite bool_decide_eq_true_2 by reflexivity.
    unfold CreateNeighborNat, bind, ret. now rewrite engine_facts.rpc_world.
  - unfold removeLocalRoute. rewrite Hrej, Hty.
    rewrite bool_decide_eq_false_2 by discriminate.
    rewrite bool_decide_eq_true_2 by reflexivity.
    unfold DeleteNeighborNat, bind, ret. now rewrite engine_facts.rpc_world.
Qed.

(** X12.  For a load-balancer-target next-hop that passed the IPv4-only
    gate, whose load balancer is registered and whose target is not
    outside a preferred network, the add path issues exactly one target
    creation and the remove path exactly one target deletion, and both
    name the registered load balancer and the target address of the
    next-hop.  "Already exists" on creation and "not found", "no back-end
    address" and "no such load balancer" on deletion are absorbed. *)
Theorem lb_target_is_created_and_deleted_alike destVni vni dest hop uid w :
  Type_ hop = NextHopType_LOADBALANCER_TARGET ->
  rejectedByPolicy c dest = false ->
  GetLoadBalancerServer (metalnetCache c) vni
    (Addr_String (netip.Prefix_Addr (Destination_Prefix dest))) = Some uid ->
  outsidePreferred c hop = false ->
  let target := {| api.LoadbalancerID := uid; api.TargetIP := TargetAddress hop |} in
  addLocalRoute c destVni vni dest hop w
  = (wrapError "error creating lb target: "
       (replyError [ALREADY_EXISTS]
          (fst (handle (CallCreateLoadBalancerTarget target) (backend w)))),
     {| backend := snd (handle (CallCreateLoadBalancerTarget target) (backend w));
        calls := calls w ++ [CallCreateLoadBalancerTarget target] |})
  /\ removeLocalRoute c destVni vni dest hop w
     = (wrapError "error deleting lb target: "
          (replyError [NOT_FOUND; NO_BACKIP; NO_LB]
             (fst (handle (CallDeleteLoadBalancerTarget uid (TargetAddress hop)) (backend w)))),
        {| backend := snd (handle (CallDeleteLoadBalancerTarget uid (TargetAddress hop))
                             (backend w));
           calls := calls w ++ [CallDeleteLoadBalancerTarget uid (TargetAddress hop)] |}).
Proof.
  unfold rejectedByPolicy, outsidePreferred. intros Hty Hrej Hlb Hin. cbn zeta. split.
  - unfold addLocalRoute. rewrite Hrej, Hty, Hlb.
    rewrite bool_decide_eq_true_2 by reflexivity. rewrite Hin.
    unfold CreateLoadBalancerTarget, bind, ret. now rewrite engine_facts.rpc_world.
  - unfold removeLocalRoute. rewrite Hrej, Hty, Hlb.
    rewrite bool_decide_eq_true_2 by reflexivity.
    unfold DeleteLoadBalancerTarget, bind, ret. now rewrite engine_facts.rpc_world.
Qed.

(** ** Cleanup *)

(** X10.  When the listing of the routes fails, by an RPC failure or by
    any non-zero status code (none is ignored for a listing),
    [CleanupNotPeeredRoutes] returns that error wrapped in the "error
    listing dpdk routes" text and has issued the listing call only. *)
Theorem Cleanup_listing_failure vni w :
  let world' := {| backend := snd (handle (CallListRoutes vni) (backend w));
                   calls := calls w ++ [CallListRoutes vni] |} in
  (forall msg,
     fst (handle (CallListRoutes vni) (backend w)) = Unreachable msg ->
     CleanupNotPeeredRoutes c vni w
     = (Some (Wrapped (listingErrorText vni) (RPCError msg)), world'))
  /\ (forall code message items,
        fst (handle (CallListRoutes vni) (backend w)) = Answer code message items ->
        code <> 0 ->
        CleanupNotPeeredRoutes c vni w
        = (Some (Wrapped (listingErrorText vni) (StatusError code message)), world')).
Proof.
  cbn zeta. split.
  - intros msg Hr. unfold CleanupNotPeeredRoutes, ListRoutes, bind, ret.
    rewrite engine_facts.rpc_world, Hr. reflexivity.
  - intros code message items Hr Hcode. unfold CleanupNotPeeredRoutes, ListRoutes, bind, ret.
    rewrite engine_facts.rpc_world, Hr.
    assert (Hnz : (code =? 0) = false) by now apply Z.eqb_neq.
    rewrite Hnz. cbn. rewrite Hnz. reflexivity.
Qed.

(** X11.  When the cache has a peer set for the network and
    [CleanupNotPeeredRoutes] returns [nil], the calls it issued are the
    listing followed by one deletion, in listing order, for exactly the
    listed routes whose next-hop network is neither the network itself
    nor a member of the peer set; the dataplane is in the state those
    calls lead to. *)
Theorem Cleanup_deletes_exactly_the_unpeered vni w set message items w' :
  peeredVnis (metalnetCache c) !! vni = Some set ->
  fst (handle (CallListRoutes vni) (backend w)) = Answer 0 message items ->
  CleanupNotPeeredRoutes c vni w = (None, w') ->
  let unpeered :=
    List.filter (fun r => negb (api.RouteNextHop_VNI (api.RouteSpec_NextHop r) =? vni)
                          && negb (Has set (api.RouteNextHop_VNI (api.RouteSpec_NextHop r))))
                items in
  let issued :=
    CallListRoutes vni
    :: List.map (fun r => CallDeleteRoute vni (api.RouteSpec_Prefix r)) unpeered in
  calls w' = calls w ++ issued
  /\ backend w' = runCalls issued (backend w).
Proof.
  intros Hset Hlist Hclean. cbn zeta.
  unfold CleanupNotPeeredRoutes, ListRoutes, GetPeerVnis, bind, ret in Hclean.
  rewrite engine_facts.rpc_world, Hlist, Hset in Hclean. cbn in Hclean.
  split.
  - rewrite (engine_facts.Cleanup_loop_calls _ _ _ _ _ _ Hclean). cbn [calls].
    rewrite <- app_assoc. cbn [app]. reflexivity.
  - rewrite (Cleanup_loop_backend _ _ _ _ _ _ Hclean). cbn [backend].
    unfold runCalls. cbn [fold_left]. reflexivity.
Qed.

End Generic.

End engine_more.

(* ===================================================================== *)
(** * Further theorems: instances and the reference dataplane *)
(* ===================================================================== *)

Module reference_more.

Import mb metalbond fanout sample.
Local Open Scope list_scope.

(** ** Instances *)

Lemma standard_route_replay_is_absorbed_witness :
  hasRoute stateWithRoute (100, Destination_Prefix dest_10_0_0_5) = true
  /\ fst (addLocalRoute client100 100 100 dest_10_0_0_5 standardHop (world stateWithRoute))
     = None.
Proof.
  split; [reflexivity|].
  apply (proj2 (proj1 (engine_more.standard_route_replay_is_absorbed client100 100 100
                         dest_10_0_0_5 standardHop (world stateWithRoute) eq_refl eq_refl))).
  exists ROUTE_EXISTS, "route exists", []. split; [vm_compute; reflexivity | now right].
Defined.

Lemma IPv4Only_refuses_without_calls_witness :
  rejectedByPolicy client100 dest_v6 = true
  /\ AddRoute client100 100 dest_v6 standardHop (world emptyState)
     = (Some (ErrorString (Join [Error nonIPv4Error; Error nonIPv4Error]
                                (String "010"%char ""))),
        world emptyState).
Proof.
  split; [reflexivity|].
  exact (proj1 (engine_more.IPv4Only_refuses_without_calls client100 100 dest_v6 standardHop
                  (world emptyState) eq_refl)).
Defined.

Lemma unregistered_load_balancer_is_an_error_witness :
  AddRoute client100 100 dest_10_9_9_9 lbHop (world emptyState)
  = (Some (ErrorString "no registered LoadBalancer on this client for vni 100 and ip 10.9.9.9"),
     world emptyState).
Proof.
  apply (proj1 (engine_more.unregistered_load_balancer_is_an_error client100 100 dest_10_9_9_9
                  lbHop (world emptyState) eq_refl eq_refl ltac:(vm_compute; reflexivity))).
Defined.

Lemma every_created_route_is_deleted_on_withdrawal_witness :
  In (CallDeleteRoute 200 (Destination_Prefix dest_10_0_0_5))
     (issuedSince (world stateWithRoute)
        (snd (RemoveRoute client100 100 dest_10_0_0_5 standardHop (world stateWithRoute)))).
Proof.
  apply (engine_more.every_created_route_is_deleted_on_withdrawal client100 100 dest_10_0_0_5
           standardHop (world emptyState) (world stateWithRoute)
           (routeFor 100 200 dest_10_0_0_5 standardHop) eq_refl).
  vm_compute. right. left. reflexivity.
Defined.

Lemma nat_mapping_is_created_and_deleted_alike_witness :
  calls (snd (addLocalRoute client100 100 100 dest_10_0_0_5 natHop (world emptyState)))
  = [CallCreateNeighborNat (natFor 100 dest_10_0_0_5 natHop)]
  /\ calls (snd (removeLocalRoute client100 100 100 dest_10_0_0_5 natHop (world emptyState)))
     = [CallDeleteNeighborNat (natFor 100 dest_10_0_0_5 natHop)].
Proof.
  destruct (engine_more.nat_mapping_is_created_and_deleted_alike client100 100 100
              dest_10_0_0_5 natHop (world emptyState) eq_refl eq_refl) as [Hadd Hrem].
  rewrite Hadd, Hrem. split; reflexivity.
Defined.

Lemma lb_target_is_created_and_deleted_alike_witness :
  calls (snd (addLocalRoute client100 100 100 dest_10_0_0_5 lbHop (world emptyState)))
  = [CallCreateLoadBalancerTarget
       {| api.LoadbalancerID := "lb-1"; api.TargetIP := TargetAddress lbHop |}]
  /\ calls (snd (removeLocalRoute client100 100 100 dest_10_0_0_5 lbHop (world emptyState)))
     = [CallDeleteLoadBalancerTarget "lb-1" (TargetAddress lbHop)].
Proof.
  destruct (engine_more.lb_target_is_created_and_deleted_alike client100 100 100
              dest_10_0_0_5 lbHop "lb-1" (world emptyState) eq_refl eq_refl
              ltac:(vm_compute; reflexivity) eq_refl) as [Hadd Hrem].
  rewrite Hadd, Hrem. split; reflexivity.
Defined.

Lemma Cleanup_listing_failure_witness :
  fst (@CleanupNotPeeredRoutes text codes (answeringWith (Unreachable "connection refused"))
         client100 100 (worldAnswering (Unreachable "connection refused")))
  = Some (Wrapped (listingErrorText 100) (RPCError "connection refused"))
  /\ fst (@CleanupNotPeeredRoutes text codes (answeringWith (Answer 205 "no vni" []))
            client100 100 (worldAnswering (Answer 205 "no vni" [])))
     = Some (Wrapped (listingErrorText 100) (StatusError 205 "no vni")).
Proof.
  split.
  - rewrite (proj1 (@engine_more.Cleanup_listing_failure text codes
                      (answeringWith (Unreachable "connection refused")) client100 100
                      (worldAnswering (Unreachable "connection refused")))
               "connection refused" eq_refl).
    reflexivity.
  - rewrite (proj2 (@engine_more.Cleanup_listing_failure text codes
                      (answeringWith (Answer 205 "no vni" [])) client100 100
                      (worldAnswering (Answer 205 "no vni" [])))
               205 "no vni" [] eq_refl ltac:(discriminate)).
    reflexivity.
Defined.

Lemma Cleanup_deletes_exactly_the_unpeered_witness :
  calls (snd (CleanupNotPeeredRoutes clientPeer200 100 (world stateVia_100_200_400)))
  = [CallListRoutes 100; CallDeleteRoute 100 (api.RouteSpec_Prefix (routeVia 4 400))].
Proof.
  apply (proj1 (engine_more.Cleanup_deletes_exactly_the_unpeered clientPeer200 100
                  (world stateVia_100_200_400) [200] ""
                  (routesOf stateVia_100_200_400 100)
                  (snd (CleanupNotPeeredRoutes clientPeer200 100 (world stateVia_100_200_400)))
                  ltac:(vm_compute; reflexivity) eq_refl ltac:(vm_compute; reflexivity))).
Defined.

(** ** The reference dataplane: creations and deletions *)

Lemma runCalls_cons (call : Call) (cs : list Call) (st : RefState) :
  runCalls (call :: cs) st = runCalls cs (snd (refHandle call st)).
Proof. reflexivity. Qed.

Lemma faulty_faults (st st' : RefState) k :
  faults st' = faults st -> faulty st' k = faulty st k.
Proof. unfold faulty. now intros ->. Qed.

Lemma healthy_not_faulty (st : RefState) k : faults st = [] -> faulty st k = false.
Proof. unfold faulty. now intros ->. Qed.

Lemma existsb_none {A} (f : A -> bool) (l : list A) :
  (forall x, In x l -> f x = false) -> existsb f l = false.
Proof.
  induction l as [|a l IH]; intros Hnone; cbn; [reflexivity|].
  rewrite (Hnone a) by now left. apply IH. intros x Hx. apply Hnone. now right.
Qed.

Lemma create_step_faults (r : api.Route) (st : RefState) :
  faults (snd (refHandle (CallCreateRoute r) st)) = faults st.
Proof.
  unfold refHandle. destruct (faulty st (routeKey r)); [reflexivity|].
  now destruct (hasRoute st (routeKey r)).
Qed.

Lemma create_step_has (r : api.Route) (st : RefState) :
  faulty st (routeKey r) = false ->
  hasRoute (snd (refHandle (CallCreateRoute r) st)) (routeKey r) = true.
Proof.
  unfold refHandle. intros ->.
  destruct (hasRoute st (routeKey r)) eqn:Hhas; cbn [snd]; [exact Hhas|].
  unfold hasRoute. cbn [installed]. rewrite existsb_app. cbn [existsb].
  unfold hasKey. rewrite bool_decide_eq_true_2 by reflexivity.
  now rewrite orb_true_r.
Qed.

Lemma create_reply_healthy (r : api.Route) (st : RefState) :
  faults st = [] ->
  metalbond.replyError [ROUTE_EXISTS] (fst (refHandle (CallCreateRoute r) st)) = None.
Proof.
  intros Hf. unfold refHandle. rewrite (healthy_not_faulty _ _ Hf).
  now destruct (hasRoute st (routeKey r)).
Qed.

Lemma delete_step_faults v prefix (st : RefState) :
  faults (snd (refHandle (CallDeleteRoute v prefix) st)) = faults st.
Proof. now rewrite reference_facts.delete_step. Qed.

Lemma delete_reply_healthy v prefix (st : RefState) :
  faults st = [] ->
  metalbond.replyError [NO_VNI; ROUTE_NOT_FOUND]
    (fst (refHandle (CallDeleteRoute v prefix) st)) = None.
Proof.
  intros Hf. unfold refHandle. rewrite (healthy_not_faulty _ _ Hf).
  now destruct (hasRoute st (v, prefix)).
Qed.

Lemma aggregate_all_nil `{GoText} (n : nat) : aggregate (List.repeat None n) = None.
Proof.
  unfold aggregate, failureMessages.
  assert (Hnil : omap id (List.repeat (@None error) n) = []) by (induction n; cbn; auto).
  now rewrite Hnil.
Qed.

Lemma dropRoutes_absent fs prefix vnis routes :
  (forall v, In v vnis -> existsb (hasKey (v, prefix)) routes = false) ->
  dropRoutes fs prefix vnis routes = routes.
Proof.
  intros Habsent. unfold dropRoutes. apply reference_facts.filter_all.
  intros r Hr. apply negb_true_iff. apply existsb_none. intros v Hv.
  now rewrite (reference_facts.existsb_false_In _ _ _ (Habsent v Hv) Hr).
Qed.

Lemma dropRoutes_In prefix vnis routes r :
  In r (dropRoutes [] prefix vnis routes)
  <-> In r routes
      /\ ~ (api.RouteSpec_Prefix r = prefix /\ In (api.RouteMeta_VNI r) vnis).
Proof.
  unfold dropRoutes. rewrite List.filter_In. cbn [existsb negb].
  split; intros [Hin Hkeep]; (split; [exact Hin|]).
  - intros [Hp Hv]. apply negb_true_iff in Hkeep.
    assert (existsb (fun v => hasKey (v, prefix) r && true) vnis = true); [|congruence].
    apply existsb_exists. exists (api.RouteMeta_VNI r). split; [exact Hv|].
    unfold hasKey, routeKey. rewrite bool_decide_eq_true_2; [reflexivity | now rewrite Hp].
  - apply negb_true_iff. apply existsb_none. intros v Hv.
    rewrite andb_true_r. unfold hasKey, routeKey. apply bool_decide_eq_false_2.
    intros [= Hvni Hprefix]. apply Hkeep. split; [exact Hprefix | now rewrite Hvni].
Qed.

Section Reference.
Context `{GoText}.
Variable c : MetalnetClient.
Variables (vni : Z) (dest : Destination) (hop : NextHop).

Lemma creates_keep targets (st : RefState) k :
  hasRoute st k = true ->
  hasRoute (runCalls (List.map (fun v => CallCreateRoute (routeFor vni v dest hop)) targets) st) k
  = true.
Proof.
  intros Hhas.
  destruct (reference_facts.run_creates vni dest hop targets st) as (_ & ext & Hinst & _).
  unfold hasRoute in *. rewrite Hinst, existsb_app, Hhas. reflexivity.
Qed.

Lemma creates_faults targets (st : RefState) :
  faults (runCalls (List.map (fun v => CallCreateRoute (routeFor vni v dest hop)) targets) st)
  = faults st.
Proof. apply (reference_facts.run_creates vni dest hop targets st). Qed.

Lemma creates_establish targets :
  forall (st : RefState) v,
    In v targets ->
    faulty st (v, Destination_Prefix dest) = false ->
    hasRoute (runCalls (List.map (fun v0 => CallCreateRoute (routeFor vni v0 dest hop)) targets)
                st)
             (v, Destination_Prefix dest) = true.
Proof.
  induction targets as [|a targets IH]; intros st v Hin Hf; [destruct Hin|].
  cbn [List.map]. rewrite runCalls_cons. destruct Hin as [<-|Hin].
  - apply creates_keep.
    apply (create_step_has (routeFor vni a dest hop) st Hf).
  - apply IH; [exact Hin|].
    now rewrite (faulty_faults st _ _ (create_step_faults _ st)).
Qed.

Lemma creates_noop targets :
  forall st : RefState,
    (forall v, In v targets ->
               faulty st (v, Destination_Prefix dest) = true
               \/ hasRoute st (v, Destination_Prefix dest) = true) ->
    runCalls (List.map (fun v => CallCreateRoute (routeFor vni v dest hop)) targets) st = st.
Proof.
  induction targets as [|a targets IH]; intros st Hall; [reflexivity|].
  cbn [List.map]. rewrite runCalls_cons.
  assert (Hstep : snd (refHandle (CallCreateRoute (routeFor vni a dest hop)) st) = st).
  { unfold refHandle.
    change (routeKey (routeFor vni a dest hop)) with (a, Destination_Prefix dest).
    destruct (faulty st (a, Destination_Prefix dest)) eqn:Hf; [reflexivity|].
    destruct (Hall a (or_introl eq_refl)) as [Hbad|Hhas]; [congruence|].
    now rewrite Hhas. }
  rewrite Hstep. apply IH. intros v Hv. apply Hall. now right.
Qed.

Hypothesis Hty : Type_ hop = NextHopType_STANDARD.
Hypothesis Hrej : rejectedByPolicy c dest = false.

Lemma add_outcomes_healthy targets :
  forall w : World,
    faults (backend w) = [] ->
    fst (attemptAll (fun v => addLocalRoute c vni v dest hop) targets w)
    = List.repeat None (length targets).
Proof.
  induction targets as [|a targets IH]; intros w Hf; [reflexivity|].
  cbn [attemptAll length List.repeat]. unfold bind.
  rewrite (engine_facts.addLocalRoute_standard c _ _ _ _ _ Hty Hrej).
  change (@handle dataplane) with refHandle.
  rewrite (create_reply_healthy _ _ Hf). cbn [wrapError].
  match goal with |- context [attemptAll ?f targets ?w1] =>
    specialize (IH w1); destruct (attemptAll f targets w1) as [rs w2] end.
  cbn [fst] in IH. unfold ret. cbn [fst]. rewrite IH; [reflexivity|].
  cbn [backend]. now rewrite create_step_faults.
Qed.

Lemma remove_outcomes_healthy targets :
  forall w : World,
    faults (backend w) = [] ->
    fst (attemptAll (fun v => removeLocalRoute c vni v dest hop) targets w)
    = List.repeat None (length targets).
Proof.
  induction targets as [|a targets IH]; intros w Hf; [reflexivity|].
  cbn [attemptAll length List.repeat]. unfold bind.
  rewrite (engine_facts.removeLocalRoute_standard c _ _ _ _ _ Hty Hrej).
  change (@handle dataplane) with refHandle.
  rewrite (delete_reply_healthy _ _ _ Hf). cbn [wrapError].
  match goal with |- context [attemptAll ?f targets ?w1] =>
    specialize (IH w1); destruct (attemptAll f targets w1) as [rs w2] end.
  cbn [fst] in IH. unfold ret. cbn [fst]. rewrite IH; [reflexivity|].
  cbn [backend]. now rewrite delete_step_faults.
Qed.

(** [AddRoute] over a healthy reference dataplane, as a whole. *)
Lemma AddRoute_healthy (w : World) :
  faults (backend w) = [] ->
  let issued :=
    List.map (fun v => CallCreateRoute (routeFor vni v dest hop))
             (vni :: List.filter (eligiblePeer (metalnetCache c) vni dest)
                                 (peersOf (metalnetCache c) vni)) in
  AddRoute c vni dest hop w
  = (None, {| backend := runCalls issued (backend w); calls := calls w ++ issued |}).
Proof.
  intros Hf issued. rewrite (engine_facts.AddRoute_attempts c).
  pose proof (engine_facts.add_attempts_world c vni dest hop
                (addTargets (metalnetCache c) vni dest hop) w Hty) as Hworld.
  pose proof (add_outcomes_healthy (addTargets (metalnetCache c) vni dest hop) w Hf) as Hout.
  destruct (attemptAll _ _ w) as [rs w']. cbn [fst snd] in *.
  rewrite Hout, aggregate_all_nil, Hworld, Hrej.
  unfold addTargets. now rewrite Hty.
Qed.

(** [RemoveRoute] over a healthy reference dataplane, as a whole. *)
Lemma RemoveRoute_healthy (w : World) :
  faults (backend w) = [] ->
  let issued :=
    List.map (fun v => CallDeleteRoute v (Destination_Prefix dest))
             (vni :: peersOf (metalnetCache c) vni) in
  RemoveRoute c vni dest hop w
  = (None, {| backend := runCalls issued (backend w); calls := calls w ++ issued |}).
Proof.
  intros Hf issued. rewrite (engine_facts.RemoveRoute_attempts c).
  pose proof (engine_facts.remove_attempts_world c vni dest hop
                (removeTargets (metalnetCache c) vni hop) w Hty) as Hworld.
  pose proof (remove_outcomes_healthy (removeTargets (metalnetCache c) vni hop) w Hf) as Hout.
  destruct (attemptAll _ _ w) as [rs w']. cbn [fst snd] in *.
  rewrite Hout, aggregate_all_nil, Hworld, Hrej.
  unfold removeTargets. now rewrite Hty.
Qed.

(** X13.  Over a reference dataplane without faults, [AddRoute] with a
    Standard next-hop that passed the IPv4-only gate returns [nil];
    afterwards every target network holds a route for the destination
    prefix, the routes installed before are all still there and in
    place, and every route that was added is the announced route in one
    of the target networks, with the announcing network as its next-hop
    network. *)
Theorem AddRoute_installs_into_every_target (st : RefState) (log : list Call) :
  faults st = [] ->
  let targets :=
    vni :: List.filter (eligiblePeer (metalnetCache c) vni dest)
                       (peersOf (metalnetCache c) vni) in
  let after := backend (snd (AddRoute c vni dest hop (logged st log))) in
  fst (AddRoute c vni dest hop (logged st log)) = None
  /\ (forall v, In v targets -> hasRoute after (v, Destination_Prefix dest) = true)
  /\ exists added,
       installed after = installed st ++ added
       /\ Forall (fun r => exists v, In v targets /\ r = routeFor vni v dest hop) added.
Proof.
  intros Hf targets after. subst after.
  rewrite (AddRoute_healthy (logged st log) Hf). cbn [fst snd backend logged].
  split; [reflexivity|]. split.
  - intros v Hv. apply creates_establish; [exact Hv | now apply healthy_not_faulty].
  - destruct (reference_facts.run_creates vni dest hop targets st) as (_ & ext & Hinst & Hall).
    exists ext. split; [exact Hinst|].
    revert Hall. apply List.Forall_impl. intros r (v & Hv & Hr & _). eauto.
Qed.

(** X14.  Over a reference dataplane without faults, for a Standard
    next-hop that passed the IPv4-only gate, announcing the same route a
    second time succeeds and changes nothing in the dataplane: the
    creations are requested again and are all absorbed. *)
Theorem AddRoute_twice_is_AddRoute_once (st : RefState) (log : list Call) :
  faults st = [] ->
  let once := snd (AddRoute c vni dest hop (logged st log)) in
  fst (AddRoute c vni dest hop once) = None
  /\ backend (snd (AddRoute c vni dest hop once)) = backend once
  /\ length (issuedSince once (snd (AddRoute c vni dest hop once)))
     = length (issuedSince (logged st log) once).
Proof.
  intros Hf once. subst once.
  rewrite (AddRoute_healthy (logged st log) Hf). cbn [snd].
  set (targets := vni :: List.filter (eligiblePeer (metalnetCache c) vni dest)
                                     (peersOf (metalnetCache c) vni)).
  set (issued := List.map (fun v => CallCreateRoute (routeFor vni v dest hop)) targets).
  assert (Hf1 : faults (runCalls issued st) = []) by (subst issued; now rewrite creates_faults).
  rewrite AddRoute_healthy by exact Hf1. cbn [fst snd backend logged calls].
  fold targets. fold issued.
  split; [reflexivity|]. split.
  - subst issued. apply creates_noop. intros v Hv. right.
    apply creates_establish; [exact Hv | now apply healthy_not_faulty].
  - now rewrite !(engine_more.issuedSince_app _ _ issued) by reflexivity.
Qed.

(** X15.  Over a reference dataplane without faults, [RemoveRoute] with
    a Standard next-hop that passed the IPv4-only gate returns [nil];
    afterwards neither the network nor any of its current peers holds a
    route for the destination prefix, and the installed routes are
    exactly the earlier ones that are not for that prefix in one of those
    networks. *)
Theorem RemoveRoute_clears_every_peer (st : RefState) (log : list Call) :
  faults st = [] ->
  let everyone := vni :: peersOf (metalnetCache c) vni in
  let after := backend (snd (RemoveRoute c vni dest hop (logged st log))) in
  fst (RemoveRoute c vni dest hop (logged st log)) = None
  /\ (forall v, In v everyone -> hasRoute after (v, Destination_Prefix dest) = false)
  /\ (forall r,
        In r (installed after)
        <-> In r (installed st)
            /\ ~ (api.RouteSpec_Prefix r = Destination_Prefix dest
                  /\ In (api.RouteMeta_VNI r) everyone)).
Proof.
  intros Hf everyone after. subst after.
  rewrite (RemoveRoute_healthy (logged st log) Hf). cbn [fst snd backend logged].
  fold everyone. rewrite reference_facts.run_deletes, Hf. cbn [installed].
  split; [reflexivity|]. split.
  - intros v Hv. unfold hasRoute. cbn [installed]. apply existsb_none.
    intros r Hr. apply dropRoutes_In in Hr. destruct Hr as [_ Hkeep].
    unfold hasKey, routeKey. apply bool_decide_eq_false_2.
    intros [= Hvni Hprefix]. apply Hkeep. split; [exact Hprefix | now rewrite Hvni].
  - intros r. apply dropRoutes_In.
Qed.

(** X16.  Over a reference dataplane without faults, for a Standard
    next-hop that passed the IPv4-only gate, withdrawing a route that is
    installed neither in the network nor in any of its current peers
    returns [nil] and leaves the dataplane as it was: the deletions are
    requested and "route not found" is absorbed. *)
Theorem RemoveRoute_of_absent_route_is_harmless (st : RefState) (log : list Call) :
  faults st = [] ->
  (forall v, In v (vni :: peersOf (metalnetCache c) vni) ->
             hasRoute st (v, Destination_Prefix dest) = false) ->
  RemoveRoute c vni dest hop (logged st log)
  = (None,
     logged st (log ++ List.map (fun v => CallDeleteRoute v (Destination_Prefix dest))
                                (vni :: peersOf (metalnetCache c) vni))).
Proof.
  intros Hf Habsent.
  rewrite (RemoveRoute_healthy (logged st log) Hf). cbn [backend calls logged].
  rewrite reference_facts.run_deletes, dropRoutes_absent by exact Habsent.
  unfold logged. now destruct st.
Qed.

End Reference.

Lemma AddRoute_installs_into_every_target_witness :
  fst (AddRoute client100 100 dest_10_0_0_5 standardHop (logged stateVia_100_200_400 []))
  = None
  /\ hasRoute (backend (snd (AddRoute client100 100 dest_10_0_0_5 standardHop
                               (logged stateVia_100_200_400 []))))
              (300, Destination_Prefix dest_10_0_0_5) = true.
Proof.
  destruct (AddRoute_installs_into_every_target client100 100 dest_10_0_0_5 standardHop
              eq_refl eq_refl stateVia_100_200_400 [] eq_refl) as (Hnil & Hhas & _).
  split; [exact Hnil|]. apply Hhas. vm_compute. right. right. left. reflexivity.
Defined.

Lemma AddRoute_twice_is_AddRoute_once_witness :
  backend (snd (AddRoute client100 100 dest_10_0_0_5 standardHop
                  (snd (AddRoute client100 100 dest_10_0_0_5 standardHop
                          (logged emptyState [])))))
  = backend (snd (AddRoute client100 100 dest_10_0_0_5 standardHop (logged emptyState []))).
Proof.
  apply (AddRoute_twice_is_AddRoute_once client100 100 dest_10_0_0_5 standardHop
           eq_refl eq_refl emptyState [] eq_refl).
Defined.

Lemma RemoveRoute_clears_every_peer_witness :
  hasRoute stateWithRoute (100, Destination_Prefix dest_10_0_0_5) = true
  /\ hasRoute (backend (snd (RemoveRoute client100 100 dest_10_0_0_5 standardHop
                               (logged stateWithRoute []))))
              (100, Destination_Prefix dest_10_0_0_5) = false.
Proof.
  split; [reflexivity|].
  destruct (RemoveRoute_clears_every_peer client100 100 dest_10_0_0_5 standardHop
              eq_refl eq_refl stateWithRoute [] eq_refl) as (_ & Hgone & _).
  apply Hgone. now left.
Defined.

Lemma RemoveRoute_of_absent_route_is_harmless_witness :
  RemoveRoute client100 100 dest_10_0_0_5 standardHop (logged stateVia_100_200_400 [])
  = (None,
     logged stateVia_100_200_400
       [CallDeleteRoute 100 (Destination_Prefix dest_10_0_0_5);
        CallDeleteRoute 200 (Destination_Prefix dest_10_0_0_5);
        CallDeleteRoute 300 (Destination_Prefix dest_10_0_0_5)]).
Proof.
  apply (RemoveRoute_of_absent_route_is_harmless client100 100 dest_10_0_0_5 standardHop
           eq_refl eq_refl stateVia_100_200_400 [] eq_refl).
  intros v Hv. cbn in Hv. destruct Hv as [<-|[<-|[<-|[]]]]; vm_compute; reflexivity.
Defined.

(** ** Cleanup over the reference dataplane *)

Lemma filter_filter {A} (f g : A -> bool) (l : list A) :
  List.filter g (List.filter f l) = List.filter (fun x => f x && g x) l.
Proof.
  induction l as [|a l IH]; cbn; [reflexivity|].
  destruct (f a); cbn; [|exact IH]. destruct (g a); now rewrite IH.
Qed.

Lemma NoDup_map_injective {A K} (f : A -> K) (l : list A) (a b : A) :
  List.NoDup (List.map f l) -> In a l -> In b l -> f a = f b -> a = b.
Proof.
  induction l as [|x l IH]; intros Hnd Ha Hb Heq; [destruct Ha|].
  cbn in Hnd. inversion Hnd as [|? ? Hnotin Hnd']; subst.
  destruct Ha as [<-|Ha], Hb as [<-|Hb].
  - reflexivity.
  - exfalso. apply Hnotin. rewrite Heq. now apply List.in_map.
  - exfalso. apply Hnotin. rewrite <- Heq. now apply List.in_map.
  - now apply IH.
Qed.

(** The reference dataplane keeps one route per network and prefix. *)
Lemma refHandle_keeps_keys_distinct (call : Call) (st : RefState) :
  List.NoDup (List.map routeKey (installed st)) ->
  List.NoDup (List.map routeKey (installed (snd (refHandle call st)))).
Proof.
  intros Hnd.
  destruct call as [target|id targetIP|nat|nat|route|v p|v]; cbn [refHandle snd];
    try exact Hnd.
  - destruct (faulty st (routeKey route)); [exact Hnd|].
    destruct (hasRoute st (routeKey route)) eqn:Hhas; [exact Hnd|].
    cbn [snd installed]. rewrite List.map_app. cbn [List.map].
    apply List.NoDup_app; [exact Hnd | repeat constructor; intros [] |].
    intros k Hk [<-|[]]. apply List.in_map_iff in Hk. destruct Hk as (r & Hr & Hin).
    unfold hasRoute in Hhas.
    pose proof (reference_facts.existsb_false_In _ _ _ Hhas Hin) as Hno.
    unfold hasKey in Hno. now rewrite bool_decide_eq_true_2 in Hno.
  - destruct (faulty st (v, p)); [exact Hnd|].
    destruct (hasRoute st (v, p)); [|exact Hnd].
    cbn [snd installed]. clear -Hnd.
    induction (installed st) as [|r rs IH]; [constructor|].
    cbn in Hnd |- *. inversion Hnd as [|? ? Hnotin Hnd']; subst.
    destruct (negb (hasKey (v, p) r)); [|now apply IH].
    cbn. constructor; [|now apply IH].
    intros Hin. apply Hnotin. apply List.in_map_iff in Hin.
    destruct Hin as (x & Hx & Hin). apply List.filter_In in Hin.
    apply List.in_map_iff. exists x. tauto.
Qed.

(** The deletions of the prefixes of a list of routes in one network,
    over a dataplane without faults. *)
Lemma run_deletes_of_routes vni (items : list api.Route) :
  forall st : RefState,
    faults st = [] ->
    runCalls (List.map (fun r => CallDeleteRoute vni (api.RouteSpec_Prefix r)) items) st
    = {| installed :=
           List.filter
             (fun r => negb (existsb (fun it => hasKey (vni, api.RouteSpec_Prefix it) r) items))
             (installed st);
         faults := faults st |}.
Proof.
  induction items as [|it items IH]; intros st Hf.
  - cbn. rewrite reference_facts.filter_all by reflexivity. now destruct st.
  - cbn [List.map]. rewrite runCalls_cons, reference_facts.delete_step.
    rewrite IH by exact Hf. cbn [installed faults]. f_equal.
    unfold dropRoutes. rewrite Hf, filter_filter. apply List.filter_ext.
    intros r. cbn [existsb negb].
    destruct (hasKey (vni, api.RouteSpec_Prefix it) r); cbn; [reflexivity|].
    reflexivity.
Qed.

Section CleanupReference.
Context `{GoText}.
Variable c : MetalnetClient.
Variables (vni : Z) (set : list Z).

Lemma Cleanup_loop_healthy ok (items : list api.Route) :
  forall w : World,
    faults (backend w) = [] ->
    fst (Cleanup_loop vni set ok items w) = None.
Proof.
  induction items as [|route rest IH]; intros w Hf; cbn [Cleanup_loop]; [reflexivity|].
  destruct (Cleanup_deletes vni set ok route); [|now apply IH].
  unfold bind.
  destruct (DeleteRoute vni (api.RouteSpec_Prefix route) [NO_VNI; ROUTE_NOT_FOUND] w)
    as [err w1] eqn:Hdel.
  unfold DeleteRoute, bind, ret in Hdel. rewrite engine_facts.rpc_world in Hdel.
  change (@handle dataplane) with refHandle in Hdel.
  rewrite (delete_reply_healthy _ _ _ Hf) in Hdel. injection Hdel as <- <-.
  apply IH. cbn [backend].
  change (faults (snd (refHandle (CallDeleteRoute vni (api.RouteSpec_Prefix route))
                         (backend w))) = []).
  now rewrite delete_step_faults.
Qed.

(** X17.  Over a reference dataplane without faults that holds one
    route per network and prefix, with a peer set in the cache,
    [CleanupNotPeeredRoutes] returns [nil] and removes from the network
    exactly the routes whose next-hop network is neither the network
    itself nor a peer: those routes are gone, every other route of the
    network and every route of every other network is still installed,
    in place. *)
Theorem Cleanup_removes_exactly_the_unpeered_routes (st : RefState) (log : list Call) :
  peeredVnis (metalnetCache c) !! vni = Some set ->
  faults st = [] ->
  List.NoDup (List.map routeKey (installed st)) ->
  fst (CleanupNotPeeredRoutes c vni (logged st log)) = None
  /\ installed (backend (snd (CleanupNotPeeredRoutes c vni (logged st log))))
     = List.filter
         (fun r => negb ((api.RouteMeta_VNI r =? vni)
                         && (negb (api.RouteNextHop_VNI (api.RouteSpec_NextHop r) =? vni)
                             && negb (Has set (api.RouteNextHop_VNI (api.RouteSpec_NextHop r))))))
         (installed st)
  /\ faults (backend (snd (CleanupNotPeeredRoutes c vni (logged st log)))) = [].
Proof.
  intros Hset Hf Hnd.
  assert (Hrun : CleanupNotPeeredRoutes c vni (logged st log)
                 = Cleanup_loop vni set true (routesOf st vni)
                     (logged st (log ++ [CallListRoutes vni]))).
  { unfold CleanupNotPeeredRoutes, ListRoutes, GetPeerVnis, bind, ret.
    rewrite engine_facts.rpc_world, Hset. reflexivity. }
  rewrite Hrun.
  pose proof (Cleanup_loop_healthy true (routesOf st vni)
                (logged st (log ++ [CallListRoutes vni])) Hf) as Hnil.
  destruct (Cleanup_loop vni set true (routesOf st vni)
              (logged st (log ++ [CallListRoutes vni]))) as [err w'] eqn:Hloop.
  cbn [fst snd] in *. subst err.
  rewrite (engine_more.Cleanup_loop_backend _ _ _ _ _ _ Hloop). cbn [backend logged].
  rewrite run_deletes_of_routes by exact Hf. cbn [installed faults].
  split; [reflexivity|]. split; [|exact Hf].
  apply List.filter_ext_in. intros r Hr. f_equal.
  unfold Cleanup_deletes. cbn [andb].
  apply eq_true_iff_eq. rewrite existsb_exists, andb_true_iff. split.
  - intros (it & Hit & Hkey).
    apply List.filter_In in Hit. destruct Hit as [Hit Hsel].
    unfold routesOf in Hit. apply List.filter_In in Hit. destruct Hit as [Hit Hvni].
    apply Z.eqb_eq in Hvni.
    assert (Heq : it = r).
    { apply (NoDup_map_injective routeKey (installed st)); [exact Hnd | exact Hit | exact Hr |].
      unfold hasKey in Hkey. apply bool_decide_eq_true_1 in Hkey.
      rewrite Hkey. unfold routeKey. now rewrite Hvni. }
    subst it. split; [now apply Z.eqb_eq | exact Hsel].
  - intros [Hvni Hsel]. exists r. split.
    + apply List.filter_In. split; [|exact Hsel].
      unfold routesOf. apply List.filter_In. now split.
    + apply Z.eqb_eq in Hvni. unfold hasKey, routeKey.
      apply bool_decide_eq_true_2. now rewrite Hvni.
Qed.

End CleanupReference.

Lemma Cleanup_removes_exactly_the_unpeered_routes_witness :
  fst (CleanupNotPeeredRoutes clientPeer200 100 (logged stateVia_100_200_400 [])) = None
  /\ installed (backend (snd (CleanupNotPeeredRoutes clientPeer200 100
                                (logged stateVia_100_200_400 []))))
     = [routeVia 1 100; routeVia 2 200].
Proof.
  destruct (Cleanup_removes_exactly_the_unpeered_routes clientPeer200 100 [200]
              stateVia_100_200_400 [] ltac:(vm_compute; reflexivity) eq_refl
              ltac:(vm_compute; repeat constructor; cbn; intuition discriminate))
    as (Hnil & Hinst & _).
  split; [exact Hnil|]. rewrite Hinst. vm_compute. reflexivity.
Defined.

End reference_more.

(* ===================================================================== *)
(** * Cleanup and the peer set *)
(* ===================================================================== *)

Module cleanup_facts.

Import mb metalbond fanout.
Local Open Scope list_scope.

Section Generic.
Context `{GoText} `{dpdkerrors} `{Dataplane}.
Variable c : MetalnetClient.



End Generic.

Import sample.



End cleanup_facts.
